(** * mongo-mcp: a shallow embedding of the MongoDB MCP adapter

    The repository has two programs that expose a MongoDB database to an
    MCP host:

    - [src/mongo.py]: the low-level server ([main] registers resource,
      prompt and tool handlers that close over one [MongoDatabase] object);
    - [src/src/mcp_server_mongo/server.py]: the FastMCP variant (a
      module-level [db] object and five decorated tool functions).

    Python strings are modelled as [string] (the UTF-8 bytes of the text),
    the [MongoDatabase] instance as its attribute dictionary, exceptions as
    an error result, and the calls made to pymongo as a log kept in the
    state that every handler threads.  [logger] calls are not modelled. *)

From Stdlib Require Import String Ascii List ZArith DecimalString Lia.
From stdpp Require Import base option gmap strings list.

Local Open Scope string_scope.
Local Open Scope Z_scope.
Local Open Scope nat_scope.
Local Open Scope list_scope.
Local Open Scope stdpp_scope.

(** ** Python values and built-ins used by the two programs *)

Module Py.
#[local] Set Warnings "-register-all".

(** JSON-like values: tool argument bags, query documents, driver
    replies.  Numbers are integers; no handler computes with them. *)
Inductive json : Type :=
| JNull
| JBool (b : bool)
| JNum (z : Z)
| JStr (s : string)
| JArr (items : list json)
| JObj (fields : list (string * json)).

(** The exceptions the handlers raise or let through.  All of them are
    subclasses of [Exception]. *)
Inductive exn : Type :=
| AttributeError (msg : string)
| KeyError (key : string)
| TypeError (msg : string)
| ValueError (msg : string)
| ExternalError (cls msg : string).

Inductive outcome (A : Type) : Type :=
| Return (a : A)
| Raise (e : exn).
Arguments Return {A} a.
Arguments Raise {A} e.

Definition squote : string := "'".

(** [str(e)]: the message, and for a [KeyError] the repr of the key. *)
Definition str_exn (e : exn) : string :=
  match e with
  | AttributeError msg => msg
  | KeyError key => squote +:+ key +:+ squote
  | TypeError msg => msg
  | ValueError msg => msg
  | ExternalError _ msg => msg
  end.

(** [sep.join(parts)] *)
Fixpoint str_join (sep : string) (parts : list string) : string :=
  match parts with
  | [] => ""
  | [p] => p
  | p :: rest => p +:+ sep +:+ str_join sep rest
  end.

(** [str(n)] and [f"{n}"] for a non-negative [int]. *)
Definition str_nat (n : nat) : string :=
  NilEmpty.string_of_uint (Nat.to_uint n).

(** [s.startswith(p)] *)
Definition startswith (s p : string) : bool := String.prefix p s.

(** [s.replace(old, new)] for a non-empty [old]: every non-overlapping
    occurrence, scanning from the left.  [skip] counts the characters of
    an occurrence that was just replaced and are still to be dropped. *)
Fixpoint replace_from (old new : string) (skip : nat) (s : string) : string :=
  match s with
  | EmptyString => EmptyString
  | String c rest =>
      match skip with
      | S k => replace_from old new k rest
      | O =>
          if String.prefix old s
          then new +:+ replace_from old new (String.length old - 1) rest
          else String c (replace_from old new 0 rest)
      end
  end.

Definition str_replace (s old new : string) : string :=
  replace_from old new 0 s.

(** [s.split("\n")] *)
Definition newline : ascii := ascii_of_nat 10.
Definition nl : string := String newline EmptyString.

Fixpoint split_lines (s : string) : list string :=
  match s with
  | EmptyString => [EmptyString]
  | String c rest =>
      if Ascii.eqb c newline then EmptyString :: split_lines rest
      else match split_lines rest with
           | [] => [String c EmptyString]
           | l :: ls => String c l :: ls
           end
  end.

(** ASCII white space, as [str.strip()] removes it. *)
Definition is_space (c : ascii) : bool :=
  let n := nat_of_ascii c in
  ((9 <=? n) && (n <=? 13)) || ((28 <=? n) && (n <=? 32)).

Fixpoint lstrip (s : string) : string :=
  match s with
  | EmptyString => EmptyString
  | String c rest => if is_space c then lstrip rest else s
  end.

Fixpoint rstrip (s : string) : string :=
  match s with
  | EmptyString => EmptyString
  | String c rest =>
      match rstrip rest with
      | EmptyString => if is_space c then EmptyString else String c EmptyString
      | r => String c r
      end
  end.

Definition strip (s : string) : string := rstrip (lstrip s).

(** Lookup in a dict given as an association list. *)
Fixpoint assoc (key : string) (fields : list (string * json)) : option json :=
  match fields with
  | [] => None
  | (k, v) :: rest => if String.eqb k key then Some v else assoc key rest
  end.

(** [doc[key]] for a string [key]: the value of a dict, [KeyError] when
    the dict lacks the key, and the [TypeError] of the operand's type when
    [doc] is not a dict (for a string operand in the wording of
    CPython 3.11 and later). *)
Definition item (doc : json) (key : string) : outcome json :=
  match doc with
  | JObj fields =>
      match assoc key fields with
      | Some v => Return v
      | None => Raise (KeyError key)
      end
  | JNull => Raise (TypeError "'NoneType' object is not subscriptable")
  | JBool _ => Raise (TypeError "'bool' object is not subscriptable")
  | JNum _ => Raise (TypeError "'int' object is not subscriptable")
  | JStr _ => Raise (TypeError "string indices must be integers, not 'str'")
  | JArr _ => Raise (TypeError "list indices must be integers or slices, not str")
  end.

End Py.
Export Py.

(** ** The process state and the handler monad

    One [MongoDatabase] object exists per process; every handler reaches it
    through a shared reference ([db]).  The state holds that object's
    attribute dictionary and the log of calls made to pymongo so far. *)

Module Runtime.

(** Attribute values of the [MongoDatabase] instance. *)
Inductive pyval : Type :=
| PStr (s : string)
| PStrList (l : list string)
| PClient (uri : string).

(** pymongo's [Collection]: the handlers read [.name] (and [.database],
    which is the one default database). *)
Record Collection : Type := { coll_name : string }.

(** A pymongo cursor: what [str(cursor)] prints and what iterating it
    ([list(cursor)]) yields. *)
Record Cursor : Type := {
  cursor_repr : string;
  cursor_items : outcome (list json)
}.

Inductive driver_call : Type :=
| CallMongoClient (uri : string)
| CallGetDatabase
| CallGetCollection (name : json)
| CallFind (coll : string) (filter limit projection : json)
| CallAggregate (coll : string) (pipeline : json)
| CallCommand (cmd : json)
| CallListCollections (filter : option json)
| CallCountDocuments (coll : string) (query : json).

(** The external collaborators: pymongo, [json.loads] and the built-in
    [str] on documents.  Each field gives the reply to one call. *)
Record Driver : Type := {
  MongoClient : string -> outcome unit;
  get_database : outcome unit;
  get_collection : json -> outcome Collection;
  find : Collection -> json -> json -> json -> outcome Cursor;
  aggregate : Collection -> json -> outcome Cursor;
  command : json -> outcome (gmap string json);
  list_collections : option json -> outcome Cursor;
  count_documents : Collection -> json -> outcome Z;
  json_loads : string -> outcome json;
  py_str : json -> string
}.

Record world : Type := {
  db_obj : gmap string pyval;
  calls : list driver_call
}.

Definition M (A : Type) : Type := world -> outcome A * world.

Definition ret {A} (a : A) : M A := fun w => (Return a, w).

Definition raise {A} (e : exn) : M A := fun w => (Raise e, w).

Definition bind {A B} (m : M A) (k : A -> M B) : M B :=
  fun w =>
    match m w with
    | (Return a, w') => k a w'
    | (Raise e, w') => (Raise e, w')
    end.

(** [try: body except Exception as e: handler(e)] *)
Definition try_except {A} (body : M A) (handler : exn -> M A) : M A :=
  fun w =>
    match body w with
    | (Return a, w') => (Return a, w')
    | (Raise e, w') => handler e w'
    end.

(** A call into the driver: logged, then answered. *)
Definition call {A} (c : driver_call) (reply : outcome A) : M A :=
  fun w => (reply, {| db_obj := db_obj w; calls := calls w ++ [c] |}).

Definition lift {A} (o : outcome A) : M A := fun w => (o, w).

Definition no_attribute (attr : string) : exn :=
  AttributeError
    (squote +:+ "MongoDatabase" +:+ squote +:+ " object has no attribute "
     +:+ squote +:+ attr +:+ squote).

(** [self.attr] (read) *)
Definition getattr (attr : string) : M pyval :=
  fun w =>
    match db_obj w !! attr with
    | Some v => (Return v, w)
    | None => (Raise (no_attribute attr), w)
    end.

(** [self.attr = v] *)
Definition setattr (attr : string) (v : pyval) : M unit :=
  fun w => (Return tt, {| db_obj := <[attr := v]> (db_obj w); calls := calls w |}).

End Runtime.
Export Runtime.

Notation "'let*' x ':=' m 'in' k" := (bind m (fun x => k))
  (at level 10, x name, m at level 100, k at level 200).
Notation "m ';;' k" := (bind m (fun _ => k))
  (at level 100, k at level 200, right associativity).

(** Operations on a tool-call argument bag ([dict[str, Any] | None]). *)

Definition subscript (arguments : option (gmap string json)) (key : string)
  : M json :=
  match arguments with
  | None => raise (TypeError "'NoneType' object is not subscriptable")
  | Some d =>
      match d !! key with
      | Some v => ret v
      | None => raise (KeyError key)
      end
  end.

Definition contains (arguments : option (gmap string json)) (key : string)
  : M bool :=
  match arguments with
  | None => raise (TypeError "argument of type 'NoneType' is not iterable")
  | Some d => ret (bool_decide (is_Some (d !! key)))
  end.

Definition dict_get (arguments : option (gmap string json)) (key : string)
  (dflt : json) : M json :=
  match arguments with
  | None => raise (AttributeError "'NoneType' object has no attribute 'get'")
  | Some d => ret (default dflt (d !! key))
  end.

(** Truth value of an argument bag: [None] and the empty dict are false. *)
Definition truthy {V} (arguments : option (gmap string V)) : bool :=
  match arguments with
  | None => false
  | Some d => negb (bool_decide (d = ∅))
  end.

(** ** src/mongo.py *)

Module mongo.

Definition dq : string := String (ascii_of_nat 34) EmptyString.

(** A format string, split at its replacement fields. *)
Inductive fmt_piece : Type :=
| Lit (s : string)
| Field (name : string).

(** [template.format(topic=topic)] *)
Fixpoint format (template : list fmt_piece) (topic : string) : outcome string :=
  match template with
  | [] => Return ""
  | Lit s :: rest =>
      match format rest topic with
      | Return r => Return (s +:+ r)
      | Raise e => Raise e
      end
  | Field name :: rest =>
      if String.eqb name "topic" then
        match format rest topic with
        | Return r => Return (topic +:+ r)
        | Raise e => Raise e
        end
      else Raise (KeyError name)
  end.

Definition PROMPT_TEMPLATE : list fmt_piece :=
  [Lit (str_join nl [
      "";
      "The assistants goal is to walkthrough an informative demo of MCP. To demonstrate the Model Context Protocol (MCP) we will leverage this example server to interact with an MongoDB database.";
      "It is important that you first explain to the user what is going on. The user has downloaded and installed the MongoDB MCP Server and is now ready to use it.";
      "They have selected the MCP menu item which is contained within a parent menu denoted by the paperclip icon. Inside this menu they selected an icon that illustrates two electrical plugs connecting. This is the MCP menu.";
      "Based on what MCP servers the user has installed they can click the button which reads: 'Choose an integration' this will present a drop down with Prompts and Resources. The user has selected the prompt titled: 'mcp-demo'.";
      "This text file is that prompt. The goal of the following instructions is to walk the user through the process of using the 3 core aspects of an MCP server. These are: Prompts, Tools, and Resources.";
      "They have already used a prompt and provided a topic. The topic is: "]);
  Field "topic";
  Lit (str_join nl [
      ". The user is now ready to begin the demo.";
      "Here is some more information about mcp and this specific mcp server:";
      "<mcp>";
      "Prompts:";
      ("This server provides a pre-written prompt called " +:+ dq +:+ "mcp-demo" +:+ dq +:+ " that helps users create and analyze database scenarios. The prompt accepts a " +:+ dq +:+ "topic" +:+ dq +:+ " argument and guides users through creating tables, analyzing data, and generating insights. For example, if a user provides " +:+ dq +:+ "retail sales" +:+ dq +:+ " as the topic, the prompt will help create relevant database tables and guide the analysis process. Prompts basically serve as interactive templates that help structure the conversation with the LLM in a useful way.");
      "Resources:";
      ("This server exposes one key resource: " +:+ dq +:+ "memo://insights" +:+ dq +:+ ", which is a business insights memo that gets automatically updated throughout the analysis process. As users analyze the database and discover insights, the memo resource gets updated in real-time to reflect new findings. Resources act as living documents that provide context to the conversation.");
      "Tools:";
      "This server provides several Mongo-related tools:";
      (dq +:+ "query" +:+ dq +:+ ": Executes a MongoDB query");
      (dq +:+ "aggregate" +:+ dq +:+ ": Executes an aggregation pipeline");
      (dq +:+ "update" +:+ dq +:+ ": Executes an update operation");
      (dq +:+ "serverInfo" +:+ dq +:+ ": Returns information about the MongoDB server");
      (dq +:+ "insert" +:+ dq +:+ ": Inserts new documents into a collection");
      (dq +:+ "createIndex" +:+ dq +:+ ": Creates an index on a collection");
      (dq +:+ "count" +:+ dq +:+ ": Counts the number of documents in a collection");
      (dq +:+ "distinct" +:+ dq +:+ ": Returns distinct values for a field in a collection");
      (dq +:+ "listCollections" +:+ dq +:+ ": Lists all collections in the database");
      "</mcp>";
      "<demo-instructions>";
      "You are an AI assistant tasked with generating a comprehensive business scenario based on a given topic.";
      "Your goal is to create a narrative that involves a data-driven business problem, develop a database structure to support it, generate relevant queries, create a dashboard, and provide a final solution.";
      "";
      "At each step you will pause for user input to guide the scenario creation process. Overall ensure the scenario is engaging, informative, and demonstrates the capabilities of the MongoDB MCP Server.";
      "You should guide the scenario to completion. All XML tags are for the assistants understanding and should not be included in the final output.";
      "";
      "1. The user has chosen the topic: "]);
  Field "topic";
  Lit (str_join nl [
      ".";
      "";
      "2. Create a business problem narrative:";
      "a. Describe a high-level business situation or problem based on the given topic.";
      "b. Include a protagonist (the user) who needs to collect and analyze data from a database.";
      "c. Add an external, potentially comedic reason why the data hasn't been prepared yet.";
      "d. Mention an approaching deadline and the need to use Claude (you) as a business tool to help.";
      "";
      "3. Setup the data:";
      ("a. Instead of asking about the data that is required for the scenario, just go ahead and use the tools to create the data. Inform the user you are " +:+ dq +:+ "Setting up the data" +:+ dq +:+ ".");
      "b. Design a set of table schemas that represent the data needed for the business problem.";
      "c. Include at least 2-3 tables with appropriate columns and data types.";
      "d. Leverage the tools to create the tables in the MongoDB database.";
      "e. Create INSERT statements to populate each table with relevant synthetic data.";
      "f. Ensure the data is diverse and representative of the business problem.";
      "g. Include at least 10-15 rows of data for each table.";
      "";
      "4. Pause for user input:";
      "a. Summarize to the user what data we have created.";
      "b. Present the user with a set of multiple choices for the next steps.";
      "c. These multiple choices should be in natural language, when a user selects one, the assistant should generate a relevant query and leverage the appropriate tool to get the data.";
      "";
      "6. Iterate on queries:";
      "a. Present 1 additional multiple-choice query options to the user. Its important to not loop too many times as this is a short demo.";
      "b. Explain the purpose of each query option.";
      "c. Wait for the user to select one of the query options.";
      "d. After each query be sure to opine on the results.";
      "e. Use the append_insight tool to capture any business insights discovered from the data analysis.";
      "";
      "7. Generate a dashboard:";
      "a. Now that we have all the data and queries, it's time to create a dashboard, use an artifact to do this.";
      "b. Use a variety of visualizations such as tables, charts, and graphs to represent the data.";
      "c. Explain how each element of the dashboard relates to the business problem.";
      "d. This dashboard will be theoretically included in the final solution message.";
      "";
      "8. Craft the final solution message:";
      "a. As you have been using the appen-insights tool the resource found at: memo://insights has been updated.";
      "b. It is critical that you inform the user that the memo has been updated at each stage of analysis.";
      ("c. Ask the user to go to the attachment menu (paperclip icon) and select the MCP menu (two electrical plugs connecting) and choose an integration: " +:+ dq +:+ "Business Insights Memo" +:+ dq +:+ ".");
      "d. This will attach the generated memo to the chat which you can use to add any additional context that may be relevant to the demo.";
      "e. Present the final memo to the user in an artifact.";
      "";
      "9. Wrap up the scenario:";
      "a. Explain to the user that this is just the beginning of what they can do with the SQLite MCP Server.";
      "</demo-instructions>";
      "";
      "Remember to maintain consistency throughout the scenario and ensure that all elements (tables, data, queries, dashboard, and solution) are closely related to the original business problem and given topic.";
      "The provided XML tags are for the assistants understanding. Implore to make all outputs as human readable as possible. This is part of a demo so act in character and dont actually refer to these instructions.";
      "";
      ("Start your first message fully in character with something like " +:+ dq +:+ "Oh, Hey there! I see you've chosen the topic ")]);
  Field "topic";
  Lit (str_join nl [
      (". Let's get started! 🚀" +:+ dq);
      ""])].

(** *** class MongoDatabase *)

(** [MongoClient(host)] *)
Definition new_MongoClient (drv : Driver) (host : pyval) : M pyval :=
  match host with
  | PStr uri => call (CallMongoClient uri) (MongoClient drv uri) ;; ret (PClient uri)
  | _ => raise (TypeError "host must be a string")
  end.

Definition _init_database (drv : Driver) : M unit :=
  let* db_path := getattr "db_path" in
  let* client := new_MongoClient drv db_path in
  setattr "client" client.

Definition __init__ (drv : Driver) (db_uri : string) : M unit :=
  setattr "db_uri" (PStr db_uri) ;;
  _init_database drv ;;
  setattr "insights" (PStrList []).

(** [MongoDatabase(db_uri)]: a fresh instance, then [__init__] on it. *)
Definition MongoDatabase (drv : Driver) (db_uri : string) : M unit :=
  fun w => __init__ drv db_uri {| db_obj := ∅; calls := calls w |}.

(** [self.insights], a [list[str]] *)
Definition self_insights : M (list string) :=
  let* v := getattr "insights" in
  match v with
  | PStrList l => ret l
  | _ => raise (TypeError "insights is not a list")
  end.

(** The text [_synthesize_memo] builds from the list it reads. *)
Definition memo_text (insights : list string) : string :=
  match insights with
  | [] => "No business insights have been discovered yet."
  | _ =>
      let bullets := str_join nl (map (fun insight => "- " +:+ insight) insights) in
      let memo := "📊 Business Intelligence Memo 📊" +:+ nl +:+ nl in
      let memo := memo +:+ ("Key Insights Discovered:" +:+ nl +:+ nl) in
      let memo := memo +:+ bullets in
      if 1 <? length insights then
        let memo := memo +:+ (nl +:+ "Summary:" +:+ nl) in
        memo +:+ ("Analysis has revealed " +:+ str_nat (length insights)
                  +:+ " key business insights that suggest opportunities for strategic optimization and growth.")
      else memo
  end.

Definition _synthesize_memo : M string :=
  let* insights := self_insights in
  ret (memo_text insights).

(** *** main: the handlers registered on the server *)

(** pydantic's [AnyUrl]: the handlers read [.scheme] and [str(uri)]. *)
Record AnyUrl : Type := { scheme : string; url_str : string }.

Record Resource : Type := {
  res_uri : AnyUrl;
  res_name : string;
  res_description : string;
  mimeType : string
}.

Record PromptArgument : Type := {
  arg_name : string;
  arg_description : string;
  required : bool
}.

Record Prompt : Type := {
  prompt_name : string;
  prompt_description : string;
  prompt_arguments : list PromptArgument
}.

Record TextContent : Type := { type : string; text : string }.

Record PromptMessage : Type := { role : string; content : TextContent }.

Record GetPromptResult : Type := {
  result_description : string;
  messages : list PromptMessage
}.

Record Tool : Type := {
  tool_name : string;
  tool_description : string;
  inputSchema : json
}.

Definition handle_list_resources : M (list Resource) :=
  ret [ {| res_uri := {| scheme := "memo"; url_str := "memo://insights" |};
           res_name := "Business Insights Memo";
           res_description := "A living document of discovered business insights";
           mimeType := "text/plain" |} ].

Definition handle_read_resource (uri : AnyUrl) : M string :=
  if negb (String.eqb (scheme uri) "memo") then
    raise (ValueError ("Unsupported URI scheme: " +:+ scheme uri))
  else
    let path := str_replace (url_str uri) "memo://" "" in
    if String.eqb path "" || negb (String.eqb path "insights") then
      raise (ValueError ("Unknown resource path: " +:+ path))
    else _synthesize_memo.

Definition handle_list_prompts : M (list Prompt) :=
  ret [ {| prompt_name := "mcp-demo";
           prompt_description :=
             "A prompt to seed the database with initial data and demonstrate what you can do with an Mongo MCP Server + Claude";
           prompt_arguments :=
             [ {| arg_name := "topic";
                  arg_description := "Topic to seed the database with initial data";
                  required := true |} ] |} ].

Definition handle_get_prompt (name : string)
  (arguments : option (gmap string string)) : M GetPromptResult :=
  if negb (String.eqb name "mcp-demo") then
    raise (ValueError ("Unknown prompt: " +:+ name))
  else
    match arguments with
    | None => raise (ValueError "Missing required argument: topic")
    | Some d =>
        match d !! "topic" with
        | None => raise (ValueError "Missing required argument: topic")
        | Some topic =>
            let* prompt := lift (format PROMPT_TEMPLATE topic) in
            ret {| result_description := "Demo template for " +:+ topic;
                   messages :=
                     [ {| role := "user";
                          content := {| type := "text"; text := strip prompt |} |} ] |}
        end
    end.

Definition handle_list_tools : M (list Tool) :=
  ret [
    {| tool_name := "query";
       tool_description :=
         "Execute a MongoDB query with optional execution plan analysis";
       inputSchema :=
         JObj [
           ("type", JStr "object");
           ("properties", JObj [
             ("collection", JObj [
               ("type", JStr "string");
               ("description", JStr "Name of the collection to query")]);
             ("filter", JObj [
               ("type", JStr "object");
               ("description", JStr "MongoDB query filter")]);
             ("projection", JObj [
               ("type", JStr "object");
               ("description", JStr "Fields to include/exclude")]);
             ("limit", JObj [
               ("type", JStr "number");
               ("description", JStr "Maximum number of documents to return")]);
             ("explain", JObj [
               ("type", JStr "string");
               ("description", JStr "Optional: Get query execution information (queryPlanner, executionStats, or allPlansExecution)");
               ("enum", JArr [JStr "queryPlanner"; JStr "executionStats"; JStr "allPlansExecution"])])]);
           ("required", JArr [JStr "collection"])] |};
    {| tool_name := "aggregate";
       tool_description :=
         "Execute a MongoDB aggregation pipeline with optional execution plan analysis";
       inputSchema :=
         JObj [
           ("type", JStr "object");
           ("properties", JObj [
             ("collection", JObj [
               ("type", JStr "string");
               ("description", JStr "Name of the collection to aggregate")]);
             ("pipeline", JObj [
               ("type", JStr "array");
               ("description", JStr "Aggregation pipeline stages")]);
             ("explain", JObj [
               ("type", JStr "string");
               ("description", JStr "Optional: Get aggregation execution information (queryPlanner, executionStats, or allPlansExecution)");
               ("enum", JArr [JStr "queryPlanner"; JStr "executionStats"; JStr "allPlansExecution"])])]);
           ("required", JArr [JStr "collection"; JStr "pipeline"])] |};
    {| tool_name := "serverInfo";
       tool_description :=
         "Get MongoDB server information including version, storage engine, and other details";
       inputSchema :=
         JObj [
           ("type", JStr "object");
           ("properties", JObj [
             ("includeDebugInfo", JObj [
               ("type", JStr "boolean");
               ("description", JStr "Include additional debug information about the server")])])] |};
    {| tool_name := "count";
       tool_description :=
         "Count the number of documents in a collection that match a query";
       inputSchema :=
         JObj [
           ("type", JStr "object");
           ("properties", JObj [
             ("collection", JObj [
               ("type", JStr "string");
               ("description", JStr "Name of the collection to count documents in")]);
             ("query", JObj [
               ("type", JStr "object");
               ("description", JStr "MongoDB query filter")]);
             ("limit", JObj [
               ("type", JStr "number");
               ("description", JStr "Optional: Maximum number of documents to count")]);
             ("skip", JObj [
               ("type", JStr "number");
               ("description", JStr "Optional: Number of documents to skip before counting")]);
             ("hint", JObj [
               ("type", JStr "object");
               ("description", JStr "Optional: Index hint to force query plan")]);
             ("readConcern", JObj [
               ("type", JStr "object");
               ("description", JStr "Optional: Read concern for the count operation")]);
             ("maxTimeMS", JObj [
               ("type", JStr "number");
               ("description", JStr "Optional: Maximum time to allow the count to run")]);
             ("collation", JObj [
               ("type", JStr "object");
               ("description", JStr "Optional: Collation rules for string comparison")])])] |};
    {| tool_name := "listCollections";
       tool_description :=
         "List all collections in the MongoDB database";
       inputSchema :=
         JObj [
           ("type", JStr "object");
           ("properties", JObj [
             ("nameOnly", JObj [
               ("type", JStr "boolean");
               ("description", JStr "Optional: If true, returns only the collection names instead of full collection info")]);
             ("filter", JObj [
               ("type", JStr "object");
               ("description", JStr "Optional: Filter to apply to the collections")])])] |}
  ].

Definition text_result (s : string) : list TextContent :=
  [ {| type := "text"; text := s |} ].

Definition build_info_field (build_info : gmap string json) (key : string)
  : M (string * json) :=
  match build_info !! key with
  | Some v => ret (key, v)
  | None => raise (KeyError key)
  end.

(** The body of the [try] block of [handle_call_tool]. *)
Definition call_tool_body (drv : Driver) (name : string)
  (arguments : option (gmap string json)) (collection : Collection)
  : M (list TextContent) :=
  if String.eqb name "query" then
    let filter := JObj [] in
    if startswith (coll_name collection) "system." then
      raise (ValueError "Access to system collections is not allowed")
    else
      let* has_filter := contains arguments "filter" in
      let* filter :=
        if has_filter : bool then
          let* f := subscript arguments "filter" in
          match f with
          | JObj _ => ret f
          | JStr s => lift (json_loads drv s)
          | _ => ret filter
          end
        else ret filter in
      let* limit := dict_get arguments "limit" (JNum 100) in
      let* projection := dict_get arguments "projection" (JObj []) in
      let* results :=
        call (CallFind (coll_name collection) filter limit projection)
             (find drv collection filter limit projection) in
      ret (text_result (cursor_repr results))
  else if String.eqb name "aggregate" then
    let* has_pipeline :=
      if truthy arguments then contains arguments "pipeline" else ret false in
    if has_pipeline : bool then
      let* pipeline := subscript arguments "pipeline" in
      let* results :=
        call (CallAggregate (coll_name collection) pipeline)
             (aggregate drv collection pipeline) in
      ret (text_result (cursor_repr results))
    else raise (ValueError "Missing pipeline argument")
  else if String.eqb name "serverInfo" then
    let cmd := JObj [("buildInfo", JNum 1)] in
    let* build_info := call (CallCommand cmd) (command drv cmd) in
    let* version := build_info_field build_info "version" in
    let* gitVersion := build_info_field build_info "gitVersion" in
    let* modules := build_info_field build_info "modules" in
    let* allocator := build_info_field build_info "allocator" in
    let* javascriptEngine := build_info_field build_info "javascriptEngine" in
    let* sysInfo := build_info_field build_info "sysInfo" in
    let* storageEngines := build_info_field build_info "storageEngines" in
    let* debug := build_info_field build_info "debug" in
    let* maxBsonObjectSize := build_info_field build_info "maxBsonObjectSize" in
    let* openssl := build_info_field build_info "openssl" in
    let* buildEnvironment := build_info_field build_info "buildEnvironment" in
    let* bits := build_info_field build_info "bits" in
    let* ok := build_info_field build_info "ok" in
    let server_info :=
      JObj [ version; gitVersion; modules; allocator; javascriptEngine;
             sysInfo; storageEngines; debug; maxBsonObjectSize; openssl;
             buildEnvironment; bits; ok; ("status", JObj []) ] in
    ret (text_result (py_str drv server_info))
  else if String.eqb name "listCollections" then
    let* filter := dict_get arguments "filter" (JObj []) in
    let* collections :=
      call (CallListCollections (Some filter)) (list_collections drv (Some filter)) in
    ret (text_result (cursor_repr collections))
  else if String.eqb name "count" then
    let* query := dict_get arguments "query" (JObj []) in
    let* count :=
      call (CallCountDocuments (coll_name collection) query)
           (count_documents drv collection query) in
    ret (text_result (py_str drv (JNum count)))
  else raise (ValueError ("Unknown tool: " +:+ name)).

Definition handle_call_tool (drv : Driver) (name : string)
  (arguments : option (gmap string json)) : M (list TextContent) :=
  let* client := getattr "client" in
  call CallGetDatabase (get_database drv) ;;
  let* key := subscript arguments "collection" in
  let* collection := call (CallGetCollection key) (get_collection drv key) in
  try_except (call_tool_body drv name arguments collection)
    (fun e => ret (text_result ("Error: " +:+ str_exn e))).

(** [main] up to the point where the server starts to serve: the
    database object is built, then the handlers are registered. *)
Inductive registration : Type := HandlersRegistered.

Definition main (drv : Driver) (db_uri : string) : M registration :=
  MongoDatabase drv db_uri ;;
  ret HandlersRegistered.

(** The requests the host can send once the handlers are registered, and
    the loop that serves them one after the other: a handler that raises
    fails that one request, and the next request is served on the state
    the failed one left. *)
Inductive request : Type :=
| ListResources
| ReadResource (uri : AnyUrl)
| ListPrompts
| GetPrompt (name : string) (arguments : option (gmap string string))
| ListTools
| CallTool (name : string) (arguments : option (gmap string json)).

Inductive response : Type :=
| ResourceList (l : list Resource)
| ResourceText (s : string)
| PromptList (l : list Prompt)
| PromptResult (r : GetPromptResult)
| ToolList (l : list Tool)
| ToolResult (l : list TextContent).

Definition handle (drv : Driver) (r : request) : M response :=
  match r with
  | ListResources => let* l := handle_list_resources in ret (ResourceList l)
  | ReadResource uri => let* s := handle_read_resource uri in ret (ResourceText s)
  | ListPrompts => let* l := handle_list_prompts in ret (PromptList l)
  | GetPrompt name arguments =>
      let* r := handle_get_prompt name arguments in ret (PromptResult r)
  | ListTools => let* l := handle_list_tools in ret (ToolList l)
  | CallTool name arguments =>
      let* l := handle_call_tool drv name arguments in ret (ToolResult l)
  end.

Fixpoint serve (drv : Driver) (requests : list request) (w : world)
  : list (outcome response) * world :=
  match requests with
  | [] => ([], w)
  | r :: rest =>
      let (o, w') := handle drv r w in
      let (os, w'') := serve drv rest w' in
      (o :: os, w'')
  end.

End mongo.

(** ** src/src/mcp_server_mongo/server.py *)

Module server.

Definition new_MongoClient (drv : Driver) (host : pyval) : M pyval :=
  match host with
  | PStr uri => call (CallMongoClient uri) (MongoClient drv uri) ;; ret (PClient uri)
  | _ => raise (TypeError "host must be a string")
  end.

Definition _init_database (drv : Driver) : M unit :=
  let* db_uri := getattr "db_uri" in
  let* client := new_MongoClient drv db_uri in
  setattr "client" client.

Definition __init__ (drv : Driver) (db_uri : string) : M unit :=
  setattr "db_uri" (PStr db_uri) ;;
  _init_database drv ;;
  setattr "insights" (PStrList []).

Definition MongoDatabase (drv : Driver) (db_uri : string) : M unit :=
  fun w => __init__ drv db_uri {| db_obj := ∅; calls := calls w |}.

(** The module body: [db_uri = os.environ["db_uri"]], then
    [db = MongoDatabase(db_uri)]. *)
Definition module_body (drv : Driver) (environ : gmap string string) : M unit :=
  match environ !! "db_uri" with
  | None => raise (KeyError "db_uri")
  | Some db_uri => MongoDatabase drv db_uri
  end.

(** [db.client.get_default_database().get_collection(collection)] *)
Definition default_collection (drv : Driver) (collection : string) : M Collection :=
  let* client := getattr "client" in
  call CallGetDatabase (get_database drv) ;;
  call (CallGetCollection (JStr collection)) (get_collection drv (JStr collection)).

Definition query (drv : Driver) (collection : string)
  (filter projection : json) (limit : Z) : M string :=
  let* coll := default_collection drv collection in
  let* results :=
    call (CallFind (coll_name coll) filter (JNum limit) projection)
         (find drv coll filter (JNum limit) projection) in
  let* result_list := lift (cursor_items results) in
  ret (py_str drv (JArr result_list)).

Definition aggregate (drv : Driver) (collection : string) (pipeline : json)
  : M string :=
  let* coll := default_collection drv collection in
  let* results :=
    call (CallAggregate (coll_name coll) pipeline)
         (Runtime.aggregate drv coll pipeline) in
  let* result_list := lift (cursor_items results) in
  ret (py_str drv (JArr result_list)).

Definition build_info_field (build_info : gmap string json) (key : string)
  : M (string * json) :=
  match build_info !! key with
  | Some v => ret (key, v)
  | None => raise (KeyError key)
  end.

Definition serverInfo (drv : Driver) : M string :=
  let* client := getattr "client" in
  call CallGetDatabase (get_database drv) ;;
  let cmd := JObj [("buildInfo", JNum 1)] in
  let* build_info := call (CallCommand cmd) (command drv cmd) in
  let* version := build_info_field build_info "version" in
  let* gitVersion := build_info_field build_info "gitVersion" in
  let* modules := build_info_field build_info "modules" in
  let* allocator := build_info_field build_info "allocator" in
  let* javascriptEngine := build_info_field build_info "javascriptEngine" in
  let* sysInfo := build_info_field build_info "sysInfo" in
  let* storageEngines := build_info_field build_info "storageEngines" in
  let* debug := build_info_field build_info "debug" in
  let* maxBsonObjectSize := build_info_field build_info "maxBsonObjectSize" in
  let* openssl := build_info_field build_info "openssl" in
  let* buildEnvironment := build_info_field build_info "buildEnvironment" in
  let* bits := build_info_field build_info "bits" in
  let* ok := build_info_field build_info "ok" in
  let server_info :=
    JObj [ version; gitVersion; modules; allocator; javascriptEngine;
           sysInfo; storageEngines; debug; maxBsonObjectSize; openssl;
           buildEnvironment; bits; ok; ("status", JObj []) ] in
  ret (py_str drv server_info).

(** The loop of [listCollections]: [collection_list.append(collection["name"])] *)
Fixpoint collect_names (collections : list json) (collection_list : list json)
  : outcome (list json) :=
  match collections with
  | [] => Return collection_list
  | collection :: rest =>
      match item collection "name" with
      | Return name => collect_names rest (collection_list ++ [name])
      | Raise e => Raise e
      end
  end.

Definition listCollections (drv : Driver) : M string :=
  let* client := getattr "client" in
  call CallGetDatabase (get_database drv) ;;
  let* collections := call (CallListCollections None) (list_collections drv None) in
  let* docs := lift (cursor_items collections) in
  let* collection_list := lift (collect_names docs []) in
  ret (py_str drv (JArr collection_list)).

Definition count (drv : Driver) (collection : string) (filter : json) : M string :=
  let* coll := default_collection drv collection in
  let* count :=
    call (CallCountDocuments (coll_name coll) filter)
         (count_documents drv coll filter) in
  ret (py_str drv (JNum count)).

(** The tool calls FastMCP can route to the five functions, and the loop
    that serves them. *)
Inductive request : Type :=
| Query (collection : string) (filter projection : json) (limit : Z)
| Aggregate (collection : string) (pipeline : json)
| ServerInfo
| ListCollections
| Count (collection : string) (filter : json).

Definition handle (drv : Driver) (r : request) : M string :=
  match r with
  | Query collection filter projection limit =>
      query drv collection filter projection limit
  | Aggregate collection pipeline => aggregate drv collection pipeline
  | ServerInfo => serverInfo drv
  | ListCollections => listCollections drv
  | Count collection filter => count drv collection filter
  end.

Fixpoint serve (drv : Driver) (requests : list request) (w : world)
  : list (outcome string) * world :=
  match requests with
  | [] => ([], w)
  | r :: rest =>
      let (o, w') := handle drv r w in
      let (os, w'') := serve drv rest w' in
      (o :: os, w'')
  end.

End server.

(** ** A driver double and concrete states

    Used to run the handlers on concrete inputs, as a test would mock
    pymongo: every call succeeds, collections carry the name they were
    asked for, cursors are empty. *)

Definition stub_cursor : Cursor :=
  {| cursor_repr := "<pymongo.cursor.Cursor object>"; cursor_items := Return [] |}.

Definition stub_driver : Driver := {|
  MongoClient := fun _ => Return tt;
  get_database := Return tt;
  get_collection := fun name =>
    match name with
    | JStr n => Return {| coll_name := n |}
    | _ => Raise (TypeError "name must be an instance of str")
    end;
  find := fun _ _ _ _ => Return stub_cursor;
  aggregate := fun _ _ => Return stub_cursor;
  command := fun _ => Return ∅;
  list_collections := fun _ => Return stub_cursor;
  count_documents := fun _ _ => Return 0%Z;
  json_loads := fun _ => Raise (ExternalError "JSONDecodeError" "Expecting value");
  py_str := fun v => match v with JArr [] => "[]" | JNum _ => "0" | _ => "{}" end
|}.

(** A driver double whose [buildInfo] reply has the thirteen fields the
    handlers copy and one they do not, and whose [str] prints the keys of
    a dict. *)
Definition sample_build_info : gmap string json :=
  list_to_map
    [ ("version", JStr "7.0.5"); ("gitVersion", JStr "7809d71e");
      ("modules", JArr []); ("allocator", JStr "tcmalloc");
      ("javascriptEngine", JStr "mozjs"); ("sysInfo", JStr "deprecated");
      ("versionArray", JArr [JNum 7; JNum 0; JNum 5; JNum 0]);
      ("storageEngines", JArr [JStr "wiredTiger"]); ("debug", JBool false);
      ("maxBsonObjectSize", JNum 16777216); ("openssl", JObj []);
      ("buildEnvironment", JObj []); ("bits", JNum 64); ("ok", JNum 1) ].

Definition info_driver : Driver := {|
  MongoClient := MongoClient stub_driver;
  get_database := get_database stub_driver;
  get_collection := get_collection stub_driver;
  find := find stub_driver;
  aggregate := aggregate stub_driver;
  command := fun _ => Return sample_build_info;
  list_collections := fun _ =>
    Return {| cursor_repr := "<pymongo.command_cursor.CommandCursor object>";
              cursor_items :=
                Return [ JObj [("name", JStr "orders"); ("type", JStr "collection")];
                         JObj [("name", JStr "system.views"); ("type", JStr "collection")] ] |};
  count_documents := count_documents stub_driver;
  json_loads := json_loads stub_driver;
  py_str := fun v =>
    match v with
    | JObj fields => str_join "," (map fst fields)
    | JArr items =>
        str_join "," (map (fun i => match i with JStr n => n | _ => "?" end) items)
    | _ => py_str stub_driver v
    end
|}.

(** A driver double whose collection listing has a document without a
    "name". *)
Definition nameless_driver : Driver := {|
  MongoClient := MongoClient stub_driver;
  get_database := get_database stub_driver;
  get_collection := get_collection stub_driver;
  find := find stub_driver;
  aggregate := aggregate stub_driver;
  command := command stub_driver;
  list_collections := fun _ =>
    Return {| cursor_repr := "<pymongo.command_cursor.CommandCursor object>";
              cursor_items :=
                Return [ JObj [("name", JStr "orders")];
                         JObj [("type", JStr "view")];
                         JObj [("name", JStr "users")] ] |};
  count_documents := count_documents stub_driver;
  json_loads := json_loads stub_driver;
  py_str := py_str stub_driver
|}.

(** A driver double for a connection string that names no database. *)
Definition detached_driver : Driver := {|
  MongoClient := MongoClient stub_driver;
  get_database := Raise (ExternalError "ConfigurationError" "No default database defined");
  get_collection := get_collection stub_driver;
  find := find stub_driver;
  aggregate := aggregate stub_driver;
  command := command stub_driver;
  list_collections := list_collections stub_driver;
  count_documents := count_documents stub_driver;
  json_loads := json_loads stub_driver;
  py_str := py_str stub_driver
|}.

(** The object [__init__] would leave behind if [_init_database] returned. *)
Definition constructed (db_uri : string) (insights : list string) : world :=
  {| db_obj := <["insights" := PStrList insights]>
                 (<["client" := PClient db_uri]>
                    (<["db_uri" := PStr db_uri]> ∅));
     calls := [] |}.

(** The resource identifier listed by [handle_list_resources]. *)
Definition memo_insights : mongo.AnyUrl :=
  {| mongo.scheme := "memo"; mongo.url_str := "memo://insights" |}.

(** The value [handle_read_resource] binds to [path]. *)
Definition resource_path (uri : mongo.AnyUrl) : string :=
  str_replace (mongo.url_str uri) "memo://" "".

(** The pieces of the memo, named. *)
Definition sentinel : string := "No business insights have been discovered yet.".
Definition memo_header : string := "📊 Business Intelligence Memo 📊".
Definition memo_title : string := "Key Insights Discovered:".
Definition bullet (insight : string) : string := "- " +:+ insight.
Definition summary_sentence (n : nat) : string :=
  "Analysis has revealed " +:+ str_nat n
  +:+ " key business insights that suggest opportunities for strategic optimization and growth.".

Definition memo_body (l : list string) : string :=
  memo_header +:+ nl +:+ nl +:+ memo_title +:+ nl +:+ nl
  +:+ str_join nl (map bullet l).

Definition summary_block (n : nat) : string :=
  nl +:+ "Summary:" +:+ nl +:+ summary_sentence n.

(** The memo layout in the words of the specification, line by line: a
    header line, a blank line, a section title, one bullet line per entry,
    and for more than one entry a blank line, the label and a sentence. *)
Definition specified_lines (header title sentence : string) (l : list string)
  : list string :=
  [header; ""; title] ++ map bullet l
  ++ (if 1 <? length l then [""; "Summary:"; sentence] else []).

Fixpoint has_newline (s : string) : bool :=
  match s with
  | EmptyString => false
  | String c rest => Ascii.eqb c newline || has_newline rest
  end.

(** The text [format] yields when every replacement field is [topic]. *)
Fixpoint fill (template : list mongo.fmt_piece) (topic : string) : string :=
  match template with
  | [] => ""
  | mongo.Lit s :: rest => s +:+ fill rest topic
  | mongo.Field _ :: rest => topic +:+ fill rest topic
  end.

Definition is_topic_field (p : mongo.fmt_piece) : bool :=
  match p with
  | mongo.Lit _ => true
  | mongo.Field name => String.eqb name "topic"
  end.

(** The keys of the [buildInfo] reply that both [serverInfo] variants copy,
    in the order they read them. *)
Definition build_info_keys : list string :=
  [ "version"; "gitVersion"; "modules"; "allocator"; "javascriptEngine";
    "sysInfo"; "storageEngines"; "debug"; "maxBsonObjectSize"; "openssl";
    "buildEnvironment"; "bits"; "ok" ].

(** Reading [keys] off [build_info] one after the other: the fields in
    that order, or the [KeyError] of the first key that is missing. *)
Fixpoint collect_fields (build_info : gmap string json) (keys : list string)
  : outcome (list (string * json)) :=
  match keys with
  | [] => Return []
  | k :: rest =>
      match build_info !! k with
      | None => Raise (KeyError k)
      | Some v =>
          match collect_fields build_info rest with
          | Return fs => Return ((k, v) :: fs)
          | Raise e => Raise e
          end
      end
  end.

(** What both [serverInfo] variants compute from the driver: the
    [buildInfo] command, the copied fields and an empty "status", printed
    with [str]. *)
Definition server_info_text (drv : Driver) : outcome string :=
  match command drv (JObj [("buildInfo", JNum 1)]) with
  | Raise e => Raise e
  | Return build_info =>
      match collect_fields build_info build_info_keys with
      | Raise e => Raise e
      | Return fs => Return (py_str drv (JObj (fs ++ [("status", JObj [])])))
      end
  end.

(** The keys of the argument bag that each branch of [handle_call_tool]
    reads. *)
Definition read_keys (name : string) : list string :=
  if String.eqb name "query" then ["collection"; "filter"; "limit"; "projection"]
  else if String.eqb name "aggregate" then ["collection"; "pipeline"]
  else if String.eqb name "listCollections" then ["collection"; "filter"]
  else if String.eqb name "count" then ["collection"; "query"]
  else ["collection"].

(** How [handle_call_tool] answers the host when the [try] block ends
    with [o]: the text, or the in-band error. *)
Definition in_band (o : outcome string) : list mongo.TextContent :=
  match o with
  | Return s => mongo.text_result s
  | Raise e => mongo.text_result ("Error: " +:+ str_exn e)
  end.

Fixpoint has_colon (s : string) : bool :=
  match s with
  | EmptyString => false
  | String c rest => Ascii.eqb c (ascii_of_nat 58) || has_colon rest
  end.

(** * Properties *)

(** ** Handlers never write to the database object

    [frame m]: running [m] leaves every attribute of the [MongoDatabase]
    object as it was, whatever [m] returns or raises. *)

Definition frame {A} (m : M A) : Prop := forall w, db_obj (m w).2 = db_obj w.

(** [returns P m]: whenever [m] returns (rather than raises), the value
    it returns satisfies [P]. *)
Definition returns {A} (P : A -> Prop) (m : M A) : Prop :=
  forall w a w', m w = (Return a, w') -> P a.

Definition is_text_result (res : list mongo.TextContent) : Prop :=
  exists txt, res = mongo.text_result txt.

Lemma frame_ret {A} (a : A) : frame (ret a).
Proof. by intros w. Qed.

Lemma frame_raise {A} (e : exn) : frame (@raise A e).
Proof. by intros w. Qed.

Lemma frame_lift {A} (o : outcome A) : frame (lift o).
Proof. by intros w. Qed.

Lemma frame_call {A} (c : driver_call) (reply : outcome A) : frame (call c reply).
Proof. by intros w. Qed.

Lemma frame_getattr (attr : string) : frame (getattr attr).
Proof. intros w. unfold getattr. by destruct (db_obj w !! attr). Qed.

Lemma frame_bind {A B} (m : M A) (k : A -> M B) :
  frame m -> (forall a, frame (k a)) -> frame (bind m k).
Proof.
  intros Hm Hk w. unfold bind. specialize (Hm w).
  destruct (m w) as [[a|e] w1]; simpl in *; [|done].
  by rewrite Hk.
Qed.

Lemma frame_try_except {A} (body : M A) (handler : exn -> M A) :
  frame body -> (forall e, frame (handler e)) -> frame (try_except body handler).
Proof.
  intros Hb Hh w. unfold try_except. specialize (Hb w).
  destruct (body w) as [[a|e] w1]; simpl in *; [done|].
  by rewrite Hh.
Qed.

Lemma frame_subscript arguments key : frame (subscript arguments key).
Proof.
  unfold subscript. destruct arguments as [d|]; [|apply frame_raise].
  destruct (d !! key); [apply frame_ret | apply frame_raise].
Qed.

Lemma frame_contains arguments key : frame (contains arguments key).
Proof. destruct arguments; [apply frame_ret | apply frame_raise]. Qed.

Lemma frame_dict_get arguments key dflt : frame (dict_get arguments key dflt).
Proof. destruct arguments; [apply frame_ret | apply frame_raise]. Qed.

Create HintDb frame.
#[local] Hint Resolve frame_ret frame_raise frame_lift frame_call frame_getattr
  frame_subscript frame_contains frame_dict_get : frame.

(** Splits a handler along its binds and case distinctions. *)
Ltac frame_step :=
  first
    [ apply frame_bind; [|intros ?]
    | apply frame_try_except; [|intros ?]
    | solve [auto with frame]
    | match goal with
      | |- frame (if ?b then _ else _) => destruct b
      | |- frame (match ?x with _ => _ end) => destruct x
      end ].

Ltac frame_auto := repeat frame_step.

Lemma frame_self_insights : frame mongo.self_insights.
Proof. unfold mongo.self_insights. frame_auto. Qed.

Lemma frame_synthesize_memo : frame mongo._synthesize_memo.
Proof. unfold mongo._synthesize_memo. apply frame_bind; [apply frame_self_insights|]. intros; apply frame_ret. Qed.

Lemma frame_read_resource uri : frame (mongo.handle_read_resource uri).
Proof.
  unfold mongo.handle_read_resource.
  repeat match goal with
         | |- frame (if ?b then _ else _) => destruct b
         end; auto using frame_synthesize_memo with frame.
Qed.

Lemma frame_get_prompt name arguments : frame (mongo.handle_get_prompt name arguments).
Proof. unfold mongo.handle_get_prompt. frame_auto. Qed.

Lemma frame_build_info_field build_info key :
  frame (mongo.build_info_field build_info key).
Proof. unfold mongo.build_info_field. frame_auto. Qed.

#[local] Hint Resolve frame_build_info_field : frame.

Lemma frame_call_tool_body drv name arguments collection :
  frame (mongo.call_tool_body drv name arguments collection).
Proof. unfold mongo.call_tool_body. frame_auto. Qed.

Lemma frame_call_tool drv name arguments :
  frame (mongo.handle_call_tool drv name arguments).
Proof.
  unfold mongo.handle_call_tool.
  repeat (apply frame_bind; [auto with frame | intros ?]).
  apply frame_try_except; [apply frame_call_tool_body | intros; apply frame_ret].
Qed.

Lemma frame_handle drv r : frame (mongo.handle drv r).
Proof.
  destruct r; simpl; apply frame_bind;
    try (intros; apply frame_ret);
    auto using frame_read_resource, frame_get_prompt, frame_call_tool;
    apply frame_ret.
Qed.

(** ** The memo *)

Lemma synthesize_memo_reads (w : world) (l : list string) :
  db_obj w !! "insights" = Some (PStrList l) ->
  mongo._synthesize_memo w = (Return (mongo.memo_text l), w).
Proof.
  intros H. unfold mongo._synthesize_memo, mongo.self_insights, bind, getattr.
  by rewrite H.
Qed.

Lemma synthesize_memo_state (w : world) : (mongo._synthesize_memo w).2 = w.
Proof.
  unfold mongo._synthesize_memo, mongo.self_insights, bind, getattr.
  destruct (db_obj w !! "insights") as [[]|]; reflexivity.
Qed.

(** C1: on the ledger in its initial, empty state [_synthesize_memo]
    returns exactly the sentence "No business insights have been
    discovered yet." and leaves the state as it was. *)
Theorem empty_ledger_renders_sentinel (w : world) :
  db_obj w !! "insights" = Some (PStrList []) ->
  mongo._synthesize_memo w
  = (Return "No business insights have been discovered yet.", w).
Proof. intros H. by rewrite (synthesize_memo_reads w []). Qed.

Lemma empty_ledger_renders_sentinel_witness :
  mongo._synthesize_memo (constructed "mongodb://localhost/shop" [])
  = (Return "No business insights have been discovered yet.",
     constructed "mongodb://localhost/shop" []).
Proof. apply empty_ledger_renders_sentinel. reflexivity. Defined.

(** C7: two consecutive calls of [_synthesize_memo] return the same
    outcome, byte for byte, and each leaves the whole state, the ledger
    included, unchanged. *)
Theorem render_twice_identical (w : world) :
  let first := mongo._synthesize_memo w in
  let second := mongo._synthesize_memo first.2 in
  first.1 = second.1 /\ first.2 = w /\ second.2 = w.
Proof.
  intros first second. subst first second.
  rewrite !synthesize_memo_state. auto.
Qed.

(** ** Construction *)

(** C9: in src/mongo.py, [MongoDatabase(db_uri)] raises [AttributeError]
    for every [db_uri]: [_init_database] reads [self.db_path], and the
    constructor has assigned [self.db_uri] only.  No client is created,
    and [main] raises the same error before it registers a handler. *)
Theorem constructor_raises_AttributeError (drv : Driver) (db_uri : string) (w : world) :
  let failed := {| db_obj := <["db_uri" := PStr db_uri]> ∅; calls := calls w |} in
  mongo.MongoDatabase drv db_uri w = (Raise (no_attribute "db_path"), failed)
  /\ mongo.main drv db_uri w = (Raise (no_attribute "db_path"), failed)
  /\ str_exn (no_attribute "db_path")
     = "'MongoDatabase' object has no attribute 'db_path'".
Proof.
  assert (mongo.MongoDatabase drv db_uri w
          = (Raise (no_attribute "db_path"),
             {| db_obj := <["db_uri" := PStr db_uri]> ∅; calls := calls w |})) as H.
  { unfold mongo.MongoDatabase, mongo.__init__, mongo._init_database.
    unfold bind, setattr, getattr; simpl.
    rewrite lookup_insert_ne by done. by rewrite lookup_empty. }
  split; [exact H|]. split; [|reflexivity].
  unfold mongo.main, bind. by rewrite H.
Qed.

(** ** The layout of the memo *)

Lemma append_cons (x : ascii) (a b : string) :
  String x a +:+ b = String x (a +:+ b).
Proof. reflexivity. Qed.

Lemma append_assoc (a b c : string) : (a +:+ b) +:+ c = a +:+ (b +:+ c).
Proof.
  induction a as [|x a IH]; [reflexivity|].
  by rewrite !append_cons, IH.
Qed.

Lemma append_empty_r (a : string) : a +:+ "" = a.
Proof.
  induction a as [|x a IH]; [reflexivity|].
  by rewrite append_cons, IH.
Qed.

Lemma memo_text_layout (l : list string) :
  l <> [] ->
  mongo.memo_text l
  = memo_body l +:+ (if 1 <? length l then summary_block (length l) else "").
Proof.
  destruct l as [|x l]; [done | intros _].
  unfold mongo.memo_text, memo_body, summary_block, summary_sentence,
    memo_header, memo_title.
  cbv zeta. destruct (1 <? length (x :: l)).
  - rewrite !append_assoc. reflexivity.
  - rewrite !append_assoc, append_empty_r. reflexivity.
Qed.

Lemma summary_block_nonempty (n : nat) : summary_block n <> "".
Proof. unfold summary_block, nl. rewrite append_cons. discriminate. Qed.

(** C2, as the code has it: for a non-empty ledger the memo is the header
    line, a blank line, the section title line, a blank line, and the
    bullets ["- " + text], one per entry in insertion order, joined by
    newlines.  The summary block is a newline that ends the last bullet
    line, the label line "Summary:" and the sentence with the entry count;
    it is appended exactly when there is more than one entry, so a
    single-entry memo ends with its bullet. *)
Theorem memo_layout (w : world) (l : list string) :
  db_obj w !! "insights" = Some (PStrList l) ->
  l <> [] ->
  mongo._synthesize_memo w
  = (Return (memo_body l
             +:+ (if 1 <? length l then summary_block (length l) else "")), w)
  /\ (mongo.memo_text l = memo_body l +:+ summary_block (length l)
      <-> 1 < length l)
  /\ (length l = 1 -> mongo.memo_text l = memo_body l).
Proof.
  intros Hw Hl. pose proof (memo_text_layout l Hl) as E.
  split; [by rewrite (synthesize_memo_reads w l Hw), E|].
  split.
  - rewrite E. destruct (1 <? length l) eqn:Hlt.
    + apply Nat.ltb_lt in Hlt. tauto.
    + apply Nat.ltb_ge in Hlt. split; [|lia].
      intros Heq. apply String.app_inj in Heq.
      symmetry in Heq. by apply summary_block_nonempty in Heq.
  - intros H1. rewrite E, H1. simpl. apply append_empty_r.
Qed.

Lemma memo_layout_witness :
  mongo._synthesize_memo (constructed "mongodb://localhost/shop" ["Revenue grew 12%"])
  = (Return ("📊 Business Intelligence Memo 📊" +:+ nl +:+ nl
             +:+ "Key Insights Discovered:" +:+ nl +:+ nl
             +:+ "- Revenue grew 12%"),
     constructed "mongodb://localhost/shop" ["Revenue grew 12%"]).
Proof.
  destruct (memo_layout (constructed "mongodb://localhost/shop" ["Revenue grew 12%"])
              ["Revenue grew 12%"]) as [H _]; [reflexivity | discriminate |].
  exact H.
Defined.

(** C2, as the specification words it, fails: with two entries the fourth
    line of the memo is blank (the specification puts the first bullet
    there) and no blank line precedes "Summary:". *)
Lemma specified_layout_fails :
  ~ exists header title sentence,
      split_lines (mongo.memo_text ["A"; "B"])
      = specified_lines header title sentence ["A"; "B"].
Proof.
  intros (header & title & sentence & H).
  vm_compute in H. discriminate H.
Qed.

(** ** Reading the memo resource *)

(** C5: a read whose scheme is not "memo", or whose path (the text of the
    URI without "memo://") is not "insights", raises [ValueError]; a read
    of memo://insights returns the memo text, for every ledger, the empty
    one included. *)
Theorem read_resource_contract (uri : mongo.AnyUrl) (w : world) (l : list string) :
  db_obj w !! "insights" = Some (PStrList l) ->
  (mongo.scheme uri <> "memo" \/ resource_path uri <> "insights" ->
   exists msg, mongo.handle_read_resource uri w = (Raise (ValueError msg), w))
  /\ (mongo.scheme uri = "memo" -> resource_path uri = "insights" ->
      mongo.handle_read_resource uri w = (Return (mongo.memo_text l), w))
  /\ mongo.handle_read_resource memo_insights w = (Return (mongo.memo_text l), w).
Proof.
  intros Hw.
  assert (forall u, mongo.scheme u = "memo" -> resource_path u = "insights" ->
                    mongo.handle_read_resource u w = (Return (mongo.memo_text l), w))
    as Hok.
  { intros u Hs Hp. unfold mongo.handle_read_resource.
    fold (resource_path u). rewrite Hs, Hp. simpl.
    by apply synthesize_memo_reads. }
  split; [|split; [apply Hok | by apply Hok]].
  intros Hbad. unfold mongo.handle_read_resource. fold (resource_path uri).
  destruct (String.eqb_spec (mongo.scheme uri) "memo") as [Hs|Hs]; simpl.
  - destruct Hbad as [Hbad|Hbad]; [done|].
    destruct (String.eqb_spec (resource_path uri) "insights") as [Hp|Hp]; [done|].
    rewrite orb_true_r. by eexists.
  - by eexists.
Qed.

Lemma read_resource_contract_witness :
  (exists msg,
      mongo.handle_read_resource
        {| mongo.scheme := "memo"; mongo.url_str := "memo://insights/2024" |}
        (constructed "mongodb://localhost/shop" [])
      = (Raise (ValueError msg), constructed "mongodb://localhost/shop" []))
  /\ mongo.handle_read_resource memo_insights (constructed "mongodb://localhost/shop" [])
     = (Return sentinel, constructed "mongodb://localhost/shop" []).
Proof.
  destruct (read_resource_contract
              {| mongo.scheme := "memo"; mongo.url_str := "memo://insights/2024" |}
              (constructed "mongodb://localhost/shop" []) [])
    as (Hbad & _ & Hok); [reflexivity|].
  split; [apply Hbad; right; vm_compute; discriminate | exact Hok].
Defined.

(** ** The tool dispatcher of src/mongo.py *)

Lemma subscript_missing (arguments : option (gmap string json)) (w : world) :
  (arguments = None \/ exists d, arguments = Some d /\ d !! "collection" = None) ->
  exists e, subscript arguments "collection" w = (Raise e, w)
            /\ (e = TypeError "'NoneType' object is not subscriptable"
                \/ e = KeyError "collection").
Proof.
  intros [->|(d & -> & Hd)]; simpl.
  - eexists; split; [reflexivity | by left].
  - rewrite Hd. eexists; split; [reflexivity | by right].
Qed.

(** C10: [arguments["collection"]] is evaluated before the [try] block,
    so a call whose argument bag is [None] or has no "collection" key
    raises, whatever the tool name and whatever the driver answers; no
    "Error: ..." text is returned. *)
Theorem missing_collection_escapes (drv : Driver) (name : string)
  (arguments : option (gmap string json)) (w : world) :
  (arguments = None \/ exists d, arguments = Some d /\ d !! "collection" = None) ->
  exists e w', mongo.handle_call_tool drv name arguments w = (Raise e, w').
Proof.
  intros Hmiss. unfold mongo.handle_call_tool, bind, getattr, call.
  destruct (db_obj w !! "client"); [|by eauto].
  destruct (get_database drv); [|by eauto].
  match goal with
  | |- context [subscript arguments "collection" ?w1] =>
      destruct (subscript_missing arguments w1 Hmiss) as (e & -> & _)
  end.
  by eauto.
Qed.

Lemma missing_collection_escapes_witness :
  exists e w',
    mongo.handle_call_tool stub_driver "listCollections" None
      (constructed "mongodb://localhost/shop" [])
    = (Raise e, w').
Proof. apply missing_collection_escapes. by left. Defined.

(** With the database object built and the default database resolved,
    the exception that escapes is the one of the subscript. *)
Lemma missing_collection_exception (drv : Driver) (name : string)
  (arguments : option (gmap string json)) (w : world) (client : pyval) :
  db_obj w !! "client" = Some client ->
  get_database drv = Return tt ->
  (arguments = None \/ exists d, arguments = Some d /\ d !! "collection" = None) ->
  exists e,
    mongo.handle_call_tool drv name arguments w
    = (Raise e, {| db_obj := db_obj w; calls := calls w ++ [CallGetDatabase] |})
    /\ (e = TypeError "'NoneType' object is not subscriptable"
        \/ e = KeyError "collection").
Proof.
  intros Hc Hd Hmiss. unfold mongo.handle_call_tool, bind, getattr, call.
  rewrite Hc, Hd.
  match goal with
  | |- context [subscript arguments "collection" ?w1] =>
      destruct (subscript_missing arguments w1 Hmiss) as (e & -> & He)
  end.
  by eauto.
Qed.

(** The schema of a listed tool names its required arguments. *)
Lemma tools_without_required_arguments (w : world) :
  exists tools,
    mongo.handle_list_tools w = (Return tools, w)
    /\ forall t, t ∈ tools ->
         mongo.tool_name t = "serverInfo" \/ mongo.tool_name t = "listCollections" ->
         item (mongo.inputSchema t) "required" = Raise (KeyError "required").
Proof.
  eexists; split; [reflexivity|].
  intros t Ht Hname. repeat (apply elem_of_cons in Ht as [->|Ht]);
    try (by apply elem_of_nil in Ht);
    try reflexivity; destruct Hname as [Hname|Hname]; discriminate Hname.
Qed.

(** C4 at a failing input: "serverInfo" with the empty argument bag its
    schema allows.  The [KeyError] of the subscript leaves the handler;
    no "Error: ..." text is produced. *)
Theorem serverInfo_without_arguments_raises :
  mongo.handle_call_tool stub_driver "serverInfo" (Some ∅)
    (constructed "mongodb://localhost/shop" [])
  = (Raise (KeyError "collection"),
     {| db_obj := db_obj (constructed "mongodb://localhost/shop" []);
        calls := [CallGetDatabase] |}).
Proof. reflexivity. Qed.

Lemma returns_ret {A} (P : A -> Prop) (a : A) : P a -> returns P (ret a).
Proof. intros HP w a' w' [= <- _]. exact HP. Qed.

Lemma returns_raise {A} (P : A -> Prop) (e : exn) : returns P (raise e).
Proof. intros w a w' [=]. Qed.

Lemma returns_bind {A B} (P : B -> Prop) (m : M A) (k : A -> M B) :
  (forall a, returns P (k a)) -> returns P (bind m k).
Proof.
  intros Hk w b w'. unfold bind.
  destruct (m w) as [[a|e] w1]; [apply Hk | intros [=]].
Qed.

Lemma text_result_is_text (txt : string) : is_text_result (mongo.text_result txt).
Proof. by exists txt. Qed.

Ltac returns_step :=
  first
    [ apply returns_bind; intros ?
    | apply returns_raise
    | apply returns_ret; apply text_result_is_text
    | match goal with
      | |- returns _ (if ?b then _ else _) => destruct b
      | |- returns _ (match ?x with _ => _ end) => destruct x
      end ].

Lemma call_tool_body_text drv name arguments collection :
  returns is_text_result (mongo.call_tool_body drv name arguments collection).
Proof. unfold mongo.call_tool_body. repeat returns_step. Qed.

(** X5: what the [try] block does guarantee: once the collection has
    been looked up, the handler never raises; it returns one text item,
    the data or an in-band error, for every tool name and argument bag. *)
Lemma call_tool_in_band (drv : Driver) (name : string)
  (d : gmap string json) (w : world)
  (client : pyval) (key : json) (collection : Collection) :
  db_obj w !! "client" = Some client ->
  get_database drv = Return tt ->
  d !! "collection" = Some key ->
  get_collection drv key = Return collection ->
  exists txt w',
    mongo.handle_call_tool drv name (Some d) w = (Return (mongo.text_result txt), w').
Proof.
  intros Hc Hd Hk Hg.
  unfold mongo.handle_call_tool, bind, getattr, call, subscript.
  rewrite Hc, Hd, Hk. unfold ret at 1. rewrite Hg. unfold try_except.
  destruct (mongo.call_tool_body _ _ _ _ _) as [[res|e] w1] eqn:Hbody.
  - apply call_tool_body_text in Hbody as [txt ->]. by eauto.
  - by eauto.
Qed.

Lemma unknown_tool_reported (drv : Driver) (name : string)
  (d : gmap string json) (w : world)
  (client : pyval) (key : json) (collection : Collection) :
  db_obj w !! "client" = Some client ->
  get_database drv = Return tt ->
  d !! "collection" = Some key ->
  get_collection drv key = Return collection ->
  name ∉ ["query"; "aggregate"; "serverInfo"; "listCollections"; "count"] ->
  mongo.handle_call_tool drv name (Some d) w
  = (Return (mongo.text_result ("Error: Unknown tool: " +:+ name)),
     {| db_obj := db_obj w;
        calls := (calls w ++ [CallGetDatabase]) ++ [CallGetCollection key] |}).
Proof.
  intros Hc Hd Hk Hg Hname.
  unfold mongo.handle_call_tool, bind, getattr, call, subscript.
  rewrite Hc, Hd, Hk. unfold ret at 1. rewrite Hg.
  unfold try_except, mongo.call_tool_body.
  repeat match goal with
         | |- context [String.eqb name ?t] =>
             destruct (String.eqb_spec name t) as [->|_];
             [exfalso; apply Hname; set_solver|]
         end.
  reflexivity.
Qed.

(** ** System collections *)

(** X7: the query branch of src/mongo.py refuses a collection whose name
    starts with "system."; no [find] reaches the driver. *)
Lemma query_system_collection_denied (drv : Driver) (d : gmap string json)
  (w : world) (client : pyval) (n : string) :
  db_obj w !! "client" = Some client ->
  get_database drv = Return tt ->
  d !! "collection" = Some (JStr n) ->
  get_collection drv (JStr n) = Return {| coll_name := n |} ->
  startswith n "system." = true ->
  mongo.handle_call_tool drv "query" (Some d) w
  = (Return (mongo.text_result "Error: Access to system collections is not allowed"),
     {| db_obj := db_obj w;
        calls := (calls w ++ [CallGetDatabase]) ++ [CallGetCollection (JStr n)] |}).
Proof.
  intros Hc Hd Hk Hg Hsys.
  unfold mongo.handle_call_tool, bind, getattr, call, subscript.
  rewrite Hc, Hd, Hk. unfold ret at 1. rewrite Hg.
  unfold try_except, mongo.call_tool_body. simpl. by rewrite Hsys.
Qed.

(** [query] of server.py hands every collection name to [find]. *)
Lemma server_query_forwards (drv : Driver) (n : string) (filter projection : json)
  (limit : Z) (w : world) (client : pyval) (c : Collection) :
  db_obj w !! "client" = Some client ->
  get_database drv = Return tt ->
  get_collection drv (JStr n) = Return c ->
  exists o,
    server.query drv n filter projection limit w
    = (o, {| db_obj := db_obj w;
             calls := ((calls w ++ [CallGetDatabase]) ++ [CallGetCollection (JStr n)])
                      ++ [CallFind (coll_name c) filter (JNum limit) projection] |}).
Proof.
  intros Hc Hd Hg.
  unfold server.query, server.default_collection, bind, getattr, call, lift.
  rewrite Hc, Hd, Hg. simpl.
  destruct (find drv c filter (JNum limit) projection) as [cur|e]; [|by eauto].
  destruct (cursor_items cur); by eauto.
Qed.

(** C6 at a failing input: [query] of server.py on "system.users" is not
    denied; the [find] is sent to the driver and its documents returned. *)
Theorem server_query_reads_system_collection :
  server.query stub_driver "system.users" (JObj []) (JObj []) 100
    (constructed "mongodb://localhost/shop" [])
  = (Return "[]",
     {| db_obj := db_obj (constructed "mongodb://localhost/shop" []);
        calls := [CallGetDatabase; CallGetCollection (JStr "system.users");
                  CallFind "system.users" (JObj []) (JNum 100) (JObj [])] |}).
Proof. reflexivity. Qed.

(** ** The ledger over the life of the process *)

Lemma frame_server_build_info_field build_info key :
  frame (server.build_info_field build_info key).
Proof. unfold server.build_info_field. frame_auto. Qed.

#[local] Hint Resolve frame_server_build_info_field : frame.

Lemma frame_server_handle drv r : frame (server.handle drv r).
Proof.
  destruct r; simpl;
    unfold server.query, server.aggregate, server.serverInfo,
      server.listCollections, server.count, server.default_collection;
    frame_auto.
Qed.

Lemma mongo_serve_frame drv requests w :
  db_obj (mongo.serve drv requests w).2 = db_obj w.
Proof.
  revert w. induction requests as [|r rest IH]; intros w; simpl; [done|].
  pose proof (frame_handle drv r w) as Hr.
  destruct (mongo.handle drv r w) as [o w1]. specialize (IH w1).
  destruct (mongo.serve drv rest w1) as [os w2]. simpl in *. congruence.
Qed.

Lemma server_serve_frame drv requests w :
  db_obj (server.serve drv requests w).2 = db_obj w.
Proof.
  revert w. induction requests as [|r rest IH]; intros w; simpl; [done|].
  pose proof (frame_server_handle drv r w) as Hr.
  destruct (server.handle drv r w) as [o w1]. specialize (IH w1).
  destruct (server.serve drv rest w1) as [os w2]. simpl in *. congruence.
Qed.

(** A successful resource read returns the memo of the ledger it finds. *)
Lemma read_resource_returns uri w l s w' :
  db_obj w !! "insights" = Some (PStrList l) ->
  mongo.handle_read_resource uri w = (Return s, w') ->
  s = mongo.memo_text l.
Proof.
  intros Hw. unfold mongo.handle_read_resource.
  destruct (negb _); [intros [=]|].
  destruct (_ || _); [intros [=]|].
  rewrite (synthesize_memo_reads w l Hw). by intros [= <- _].
Qed.

Lemma handle_resource_text drv r w l s w' :
  db_obj w !! "insights" = Some (PStrList l) ->
  mongo.handle drv r w = (Return (mongo.ResourceText s), w') ->
  s = mongo.memo_text l.
Proof.
  intros Hw. destruct r; simpl; unfold bind.
  - intros [=].
  - destruct (mongo.handle_read_resource uri w) as [[s0|e] w1] eqn:Hr; [|intros [=]].
    intros [= <- _]. by eapply read_resource_returns.
  - intros [=].
  - destruct (mongo.handle_get_prompt name arguments w) as [[?|?] ?]; intros [=].
  - intros [=].
  - destruct (mongo.handle_call_tool drv name arguments w) as [[?|?] ?]; intros [=].
Qed.

Lemma serve_resource_texts drv requests w l :
  db_obj w !! "insights" = Some (PStrList l) ->
  Forall (fun o => forall s, o = Return (mongo.ResourceText s) -> s = mongo.memo_text l)
    (mongo.serve drv requests w).1.
Proof.
  revert w. induction requests as [|r rest IH]; intros w Hw; simpl; [constructor|].
  pose proof (frame_handle drv r w) as Hr.
  destruct (mongo.handle drv r w) as [o w1] eqn:Ho. simpl in Hr.
  assert (db_obj w1 !! "insights" = Some (PStrList l)) as Hw1 by (by rewrite Hr).
  specialize (IH w1 Hw1).
  destruct (mongo.serve drv rest w1) as [os w2].
  constructor; [|exact IH].
  intros s ->. exact (handle_resource_text drv r w l s w1 Hw Ho).
Qed.

(** The module body of server.py, when it returns, leaves an empty ledger. *)
Lemma server_module_body_ledger drv environ w0 w :
  server.module_body drv environ w0 = (Return tt, w) ->
  db_obj w !! "insights" = Some (PStrList []).
Proof.
  unfold server.module_body. destruct (environ !! "db_uri") as [uri|]; [|intros [=]].
  unfold server.MongoDatabase, server.__init__, server._init_database,
    server.new_MongoClient, bind, setattr, getattr, call, ret; simpl.
  rewrite lookup_insert_eq.
  destruct (MongoClient drv uri) as [[]|e]; [|intros [=]].
  intros [= <-]. simpl. by rewrite lookup_insert_eq.
Qed.

(** Every request handler of either server leaves the ledger exactly as
    it found it, and a render after any request returns the memo of the
    same entries. *)
Lemma ledger_unchanged_by_requests (drv : Driver) (w : world) (l : list string)
  (r : mongo.request) (t : server.request) :
  db_obj w !! "insights" = Some (PStrList l) ->
  let w' := (mongo.handle drv r w).2 in
  db_obj w' !! "insights" = Some (PStrList l)
  /\ mongo._synthesize_memo w' = (Return (mongo.memo_text l), w')
  /\ db_obj (server.handle drv t w).2 !! "insights" = Some (PStrList l).
Proof.
  intros Hw w'. subst w'.
  assert (db_obj (mongo.handle drv r w).2 !! "insights" = Some (PStrList l)) as H
    by (by rewrite frame_handle).
  split; [exact H|]. split; [by apply synthesize_memo_reads|].
  by rewrite frame_server_handle.
Qed.

(** C3 at a failing input: the "append_insight" tool call that the prompt
    text of src/mongo.py tells the model to make, followed by a read of
    the memo.  With the argument bag the prompt implies, the call raises
    [KeyError] on "collection"; with a "collection" added it is answered
    "Error: Unknown tool: append_insight".  Either way the ledger is still
    empty and the read returns the sentence for the empty ledger: the
    text was not appended. *)
Theorem append_insight_does_not_append :
  let w := constructed "mongodb://localhost/shop" [] in
  mongo.serve stub_driver
    [ mongo.CallTool "append_insight" (Some {["insight" := JStr "Revenue grew 12%"]});
      mongo.ReadResource memo_insights ] w
  = ([ Raise (KeyError "collection");
       Return (mongo.ResourceText "No business insights have been discovered yet.") ],
     {| db_obj := db_obj w; calls := [CallGetDatabase] |})
  /\ mongo.serve stub_driver
       [ mongo.CallTool "append_insight"
           (Some (<["collection" := JStr "notes"]>
                    {["insight" := JStr "Revenue grew 12%"]}));
         mongo.ReadResource memo_insights ] w
     = ([ Return (mongo.ToolResult
                    (mongo.text_result "Error: Unknown tool: append_insight"));
          Return (mongo.ResourceText "No business insights have been discovered yet.") ],
        {| db_obj := db_obj w;
           calls := [CallGetDatabase; CallGetCollection (JStr "notes")] |})
  /\ db_obj w !! "insights" = Some (PStrList []).
Proof. repeat split; vm_compute; reflexivity. Qed.

(** C8: starting from the empty ledger that [__init__] assigns, the ledger
    is empty after every sequence of requests, on either server, and every
    successful resource read in between returns the sentence for the empty
    ledger. *)
Theorem ledger_always_empty (drv : Driver) (w : world)
  (requests : list mongo.request) (tool_calls : list server.request) :
  db_obj w !! "insights" = Some (PStrList []) ->
  db_obj (mongo.serve drv requests w).2 !! "insights" = Some (PStrList [])
  /\ Forall (fun o => forall s, o = Return (mongo.ResourceText s) ->
                      s = "No business insights have been discovered yet.")
       (mongo.serve drv requests w).1
  /\ db_obj (server.serve drv tool_calls w).2 !! "insights" = Some (PStrList []).
Proof.
  intros Hw. split; [by rewrite mongo_serve_frame|].
  split; [|by rewrite server_serve_frame].
  exact (serve_resource_texts drv requests w [] Hw).
Qed.

Lemma ledger_always_empty_witness :
  let w := constructed "mongodb://localhost/shop" [] in
  let requests :=
    [ mongo.CallTool "append_insight" (Some {["insight" := JStr "Revenue grew 12%"]});
      mongo.ReadResource memo_insights ] in
  let tool_calls := [ server.Count "orders" (JObj []) ] in
  db_obj (mongo.serve stub_driver requests w).2 !! "insights" = Some (PStrList [])
  /\ Forall (fun o => forall s, o = Return (mongo.ResourceText s) ->
                      s = "No business insights have been discovered yet.")
       (mongo.serve stub_driver requests w).1
  /\ db_obj (server.serve stub_driver tool_calls w).2 !! "insights" = Some (PStrList []).
Proof. apply ledger_always_empty. reflexivity. Defined.

(** ** The memo, line by line *)

Lemma has_newline_append (a b : string) :
  has_newline (a +:+ b) = has_newline a || has_newline b.
Proof.
  induction a as [|x a IH]; [reflexivity|].
  rewrite append_cons. simpl. by rewrite IH, orb_assoc.
Qed.

Lemma split_lines_plain (s : string) :
  has_newline s = false -> split_lines s = [s].
Proof.
  induction s as [|c s IH]; [reflexivity|]. simpl.
  intros [Hc Hs]%orb_false_elim. by rewrite Hc, IH.
Qed.

Lemma split_lines_append (s t : string) :
  has_newline s = false -> split_lines (s +:+ nl +:+ t) = s :: split_lines t.
Proof.
  induction s as [|c s IH]; [reflexivity|].
  rewrite append_cons. simpl.
  intros [Hc Hs]%orb_false_elim. by rewrite Hc, IH.
Qed.

Lemma split_lines_nl (t : string) : split_lines (nl +:+ t) = "" :: split_lines t.
Proof. reflexivity. Qed.

Lemma string_of_uint_plain (d : Decimal.uint) :
  has_newline (NilEmpty.string_of_uint d) = false.
Proof. induction d; simpl; auto. Qed.

Lemma bullet_plain (s : string) : has_newline s = false -> has_newline (bullet s) = false.
Proof. intros H. unfold bullet. by rewrite has_newline_append, H. Qed.

Lemma split_lines_bullets (l : list string) (rest : string) :
  l <> [] ->
  Forall (fun s => has_newline s = false) l ->
  split_lines (str_join nl (map bullet l) +:+ nl +:+ rest)
  = map bullet l ++ split_lines rest.
Proof.
  induction l as [|x l IH]; [done | intros _ Hl].
  inversion Hl as [|? ? Hx Hl']; subst.
  destruct l as [|y l].
  - simpl. by rewrite split_lines_append by (by apply bullet_plain).
  - change (str_join nl (map bullet (x :: y :: l)))
      with (bullet x +:+ nl +:+ str_join nl (map bullet (y :: l))).
    rewrite !append_assoc.
    rewrite split_lines_append by (by apply bullet_plain).
    rewrite IH by done. reflexivity.
Qed.

Lemma split_lines_bullets_end (l : list string) :
  l <> [] ->
  Forall (fun s => has_newline s = false) l ->
  split_lines (str_join nl (map bullet l)) = map bullet l.
Proof.
  induction l as [|x l IH]; [done | intros _ Hl].
  inversion Hl as [|? ? Hx Hl']; subst.
  destruct l as [|y l].
  - simpl. by rewrite split_lines_plain by (by apply bullet_plain).
  - change (str_join nl (map bullet (x :: y :: l)))
      with (bullet x +:+ nl +:+ str_join nl (map bullet (y :: l))).
    rewrite split_lines_append by (by apply bullet_plain).
    by rewrite IH.
Qed.

(** For entries without a newline, the lines of the memo: header, blank,
    title, blank, the bullets, and for more than one entry "Summary:" and
    the sentence, with no blank line before the label. *)
Lemma memo_lines (l : list string) :
  l <> [] ->
  Forall (fun s => has_newline s = false) l ->
  split_lines (mongo.memo_text l)
  = [memo_header; ""; memo_title; ""] ++ map bullet l
    ++ (if 1 <? length l then ["Summary:"; summary_sentence (length l)] else []).
Proof.
  intros Hne Hl. rewrite (memo_text_layout l Hne). unfold memo_body.
  rewrite !append_assoc.
  rewrite split_lines_append, split_lines_nl by reflexivity.
  rewrite split_lines_append, split_lines_nl by reflexivity.
  simpl. do 4 f_equal.
  destruct (1 <? length l).
  - unfold summary_block. rewrite split_lines_bullets by done.
    f_equal. rewrite split_lines_append by reflexivity.
    f_equal. apply split_lines_plain. unfold summary_sentence.
    rewrite !has_newline_append. unfold str_nat.
    by rewrite string_of_uint_plain.
  - rewrite append_empty_r, app_nil_r. by apply split_lines_bullets_end.
Qed.

(** * Further properties of the handlers *)

(** ** Resources and prompts *)

Lemma read_memo_insights (w : world) (l : list string) :
  db_obj w !! "insights" = Some (PStrList l) ->
  mongo.handle_read_resource memo_insights w = (Return (mongo.memo_text l), w).
Proof.
  intros Hw. unfold mongo.handle_read_resource.
  change (str_replace (mongo.url_str memo_insights) "memo://" "") with "insights".
  simpl. by apply synthesize_memo_reads.
Qed.

(** X1: every resource that [handle_list_resources] lists can be read:
    [handle_read_resource] on its URI returns the memo of the ledger. *)
Theorem listed_resources_readable (w w' : world) (l : list string)
  (listed : list mongo.Resource) (res : mongo.Resource) :
  db_obj w !! "insights" = Some (PStrList l) ->
  mongo.handle_list_resources w = (Return listed, w') ->
  res ∈ listed ->
  mongo.handle_read_resource (mongo.res_uri res) w' = (Return (mongo.memo_text l), w').
Proof.
  intros Hw [= <- <-] Hres.
  apply list_elem_of_singleton in Hres as ->.
  by apply read_memo_insights.
Qed.

Lemma listed_resources_readable_witness :
  mongo.handle_read_resource
    (mongo.res_uri
       {| mongo.res_uri := memo_insights;
          mongo.res_name := "Business Insights Memo";
          mongo.res_description := "A living document of discovered business insights";
          mongo.mimeType := "text/plain" |})
    (constructed "mongodb://localhost/shop" ["Churn fell"; "Revenue grew 12%"])
  = (Return (mongo.memo_text ["Churn fell"; "Revenue grew 12%"]),
     constructed "mongodb://localhost/shop" ["Churn fell"; "Revenue grew 12%"]).
Proof.
  apply (listed_resources_readable
           (constructed "mongodb://localhost/shop" ["Churn fell"; "Revenue grew 12%"])
           (constructed "mongodb://localhost/shop" ["Churn fell"; "Revenue grew 12%"])
           ["Churn fell"; "Revenue grew 12%"]
           [ {| mongo.res_uri := memo_insights;
                mongo.res_name := "Business Insights Memo";
                mongo.res_description := "A living document of discovered business insights";
                mongo.mimeType := "text/plain" |} ]);
    [reflexivity | reflexivity | apply list_elem_of_singleton; reflexivity].
Defined.

(** X2: the resource, prompt and catalog handlers are read-only: whatever
    they return or raise, they leave the database object untouched and
    send nothing to the driver.  Only tool calls reach pymongo. *)
Theorem non_tool_requests_leave_state (drv : Driver) (r : mongo.request) (w : world) :
  (forall name arguments, r <> mongo.CallTool name arguments) ->
  (mongo.handle drv r w).2 = w.
Proof.
  intros Hr. destruct r as [|uri| |name arguments| |name arguments];
    simpl; unfold bind; try reflexivity.
  - unfold mongo.handle_read_resource.
    destruct (negb _); [reflexivity|]. destruct (_ || _); [reflexivity|].
    pose proof (synthesize_memo_state w) as Hs.
    by destruct (mongo._synthesize_memo w) as [[s|e] w1].
  - unfold mongo.handle_get_prompt.
    destruct (negb _); [reflexivity|].
    destruct arguments as [d|]; [|reflexivity].
    destruct (d !! "topic"); [|reflexivity].
    unfold bind, lift. by destruct (mongo.format _ _).
  - by destruct (Hr name arguments).
Qed.

Lemma non_tool_requests_leave_state_witness :
  (mongo.handle stub_driver (mongo.GetPrompt "mcp-demo" (Some {["topic" := "retail"]}))
     (constructed "mongodb://localhost/shop" [])).2
  = constructed "mongodb://localhost/shop" [].
Proof. apply non_tool_requests_leave_state. intros name arguments H. discriminate H. Defined.

(** X3: [handle_get_prompt] checks the prompt name first: any other name
    raises "Unknown prompt: <name>" whatever the arguments are; for
    "mcp-demo", an absent, empty or topic-less argument bag raises
    "Missing required argument: topic". *)
Theorem get_prompt_rejects (name : string) (arguments : option (gmap string string))
  (w : world) :
  (name <> "mcp-demo" ->
   mongo.handle_get_prompt name arguments w
   = (Raise (ValueError ("Unknown prompt: " +:+ name)), w))
  /\ ((arguments = None \/ exists d, arguments = Some d /\ d !! "topic" = None) ->
      mongo.handle_get_prompt "mcp-demo" arguments w
      = (Raise (ValueError "Missing required argument: topic"), w)).
Proof.
  split.
  - intros Hname. unfold mongo.handle_get_prompt.
    by destruct (String.eqb_spec name "mcp-demo").
  - unfold mongo.handle_get_prompt.
    change (negb ("mcp-demo" =? "mcp-demo")%string) with false. cbv iota.
    intros [->|(d & -> & Hd)]; [reflexivity | by rewrite Hd].
Qed.

(** ** The tool dispatcher *)

(** X4: a tool name that [handle_list_tools] does not list (the "update",
    "insert", "createIndex" and "distinct" of the prompt text, or
    "append_insight") is answered in-band with "Error: Unknown tool:
    <name>"; nothing beyond the collection lookup reaches the driver. *)
Theorem uncatalogued_tool_reported (drv : Driver) (name : string)
  (d : gmap string json) (w : world) (tools : list mongo.Tool)
  (client : pyval) (key : json) (collection : Collection) :
  mongo.handle_list_tools w = (Return tools, w) ->
  name ∉ map mongo.tool_name tools ->
  db_obj w !! "client" = Some client ->
  get_database drv = Return tt ->
  d !! "collection" = Some key ->
  get_collection drv key = Return collection ->
  mongo.handle_call_tool drv name (Some d) w
  = (Return (mongo.text_result ("Error: Unknown tool: " +:+ name)),
     {| db_obj := db_obj w;
        calls := (calls w ++ [CallGetDatabase]) ++ [CallGetCollection key] |}).
Proof.
  intros [= <-] Hname Hc Hd Hk Hg.
  eapply unknown_tool_reported; eauto.
  intros Hin. apply Hname. simpl.
  rewrite !elem_of_cons in Hin. rewrite !elem_of_cons. tauto.
Qed.

Lemma uncatalogued_tool_reported_witness :
  mongo.handle_call_tool stub_driver "createIndex"
    (Some {["collection" := JStr "orders"]})
    (constructed "mongodb://localhost/shop" [])
  = (Return (mongo.text_result "Error: Unknown tool: createIndex"),
     {| db_obj := db_obj (constructed "mongodb://localhost/shop" []);
        calls := [CallGetDatabase; CallGetCollection (JStr "orders")] |}).
Proof.
  eapply (uncatalogued_tool_reported stub_driver "createIndex"
            {["collection" := JStr "orders"]}
            (constructed "mongodb://localhost/shop" []));
    [reflexivity | | reflexivity .. ].
  intros H. simpl in H.
  repeat (apply elem_of_cons in H as [H|H]; [discriminate H|]).
  by apply elem_of_nil in H.
Defined.

Lemma call_tool_in_band_witness :
  exists txt w',
    mongo.handle_call_tool stub_driver "query"
      (Some {["collection" := JStr "orders"]})
      (constructed "mongodb://localhost/shop" [])
    = (Return (mongo.text_result txt), w').
Proof.
  apply (call_tool_in_band stub_driver "query" {["collection" := JStr "orders"]}
           (constructed "mongodb://localhost/shop" [])
           (PClient "mongodb://localhost/shop") (JStr "orders")
           {| coll_name := "orders" |});
    reflexivity.
Defined.

Lemma query_system_collection_denied_witness :
  mongo.handle_call_tool stub_driver "query"
    (Some {["collection" := JStr "system.users"]})
    (constructed "mongodb://localhost/shop" [])
  = (Return (mongo.text_result "Error: Access to system collections is not allowed"),
     {| db_obj := db_obj (constructed "mongodb://localhost/shop" []);
        calls := ([] ++ [CallGetDatabase]) ++ [CallGetCollection (JStr "system.users")] |}).
Proof.
  apply (query_system_collection_denied stub_driver
           {["collection" := JStr "system.users"]}
           (constructed "mongodb://localhost/shop" [])
           (PClient "mongodb://localhost/shop") "system.users");
    reflexivity.
Defined.

(** X6: a failure of the lookup itself is not caught either: when
    [get_database] raises, or the driver refuses the collection name, that
    exception leaves [handle_call_tool], for every tool name. *)
Theorem collection_lookup_failure_escapes (drv : Driver) (name : string)
  (d : gmap string json) (w : world) (client : pyval) (key : json) (e : exn) :
  db_obj w !! "client" = Some client ->
  d !! "collection" = Some key ->
  get_database drv = Raise e
  \/ (get_database drv = Return tt /\ get_collection drv key = Raise e) ->
  exists w', mongo.handle_call_tool drv name (Some d) w = (Raise e, w').
Proof.
  intros Hc Hk Hfail.
  unfold mongo.handle_call_tool, bind, getattr, call, subscript. rewrite Hc.
  destruct Hfail as [->|[-> Hg]]; [by eauto|].
  rewrite Hk. unfold ret at 1. rewrite Hg. by eauto.
Qed.

Lemma collection_lookup_failure_escapes_witness :
  exists w',
    mongo.handle_call_tool stub_driver "count" (Some {["collection" := JNum 7]})
      (constructed "mongodb://localhost/shop" [])
    = (Raise (TypeError "name must be an instance of str"), w').
Proof.
  apply (collection_lookup_failure_escapes stub_driver "count"
           {["collection" := JNum 7]}
           (constructed "mongodb://localhost/shop" [])
           (PClient "mongodb://localhost/shop") (JNum 7));
    [reflexivity | reflexivity | right; split; reflexivity].
Defined.

(** After a successful lookup, the handler is the [try] block run on the
    collection. *)
Lemma call_tool_after_lookup (drv : Driver) (name : string)
  (d : gmap string json) (w : world) (client : pyval) (key : json)
  (c : Collection) :
  db_obj w !! "client" = Some client ->
  get_database drv = Return tt ->
  d !! "collection" = Some key ->
  get_collection drv key = Return c ->
  mongo.handle_call_tool drv name (Some d) w
  = try_except (mongo.call_tool_body drv name (Some d) c)
      (fun e => ret (mongo.text_result ("Error: " +:+ str_exn e)))
      {| db_obj := db_obj w;
         calls := (calls w ++ [CallGetDatabase]) ++ [CallGetCollection key] |}.
Proof.
  intros Hc Hd Hk Hg.
  unfold mongo.handle_call_tool, bind, getattr, call, subscript.
  rewrite Hc, Hd, Hk. unfold ret at 1. by rewrite Hg.
Qed.

(** X8: [query] on a collection outside "system.": [find] is called once,
    with the filter given as an object (or parsed from a JSON string, or
    empty when absent), the limit (100 by default) and the projection
    (empty by default).  The answer is [str] of the cursor, or the error
    of [find] in-band. *)
Theorem query_forwards (drv : Driver) (d : gmap string json) (w : world)
  (client : pyval) (key : json) (c : Collection) (f : json) :
  db_obj w !! "client" = Some client ->
  get_database drv = Return tt ->
  d !! "collection" = Some key ->
  get_collection drv key = Return c ->
  startswith (coll_name c) "system." = false ->
  (d !! "filter" = None /\ f = JObj [])
  \/ (exists fs, d !! "filter" = Some (JObj fs) /\ f = JObj fs)
  \/ (exists s, d !! "filter" = Some (JStr s) /\ json_loads drv s = Return f) ->
  let limit := default (JNum 100) (d !! "limit") in
  let projection := default (JObj []) (d !! "projection") in
  mongo.handle_call_tool drv "query" (Some d) w
  = (Return (in_band match find drv c f limit projection with
                     | Return results => Return (cursor_repr results)
                     | Raise e => Raise e
                     end),
     {| db_obj := db_obj w;
        calls := ((calls w ++ [CallGetDatabase]) ++ [CallGetCollection key])
                 ++ [CallFind (coll_name c) f limit projection] |}).
Proof.
  intros Hc Hd Hk Hg Hsys Hf limit projection.
  rewrite (call_tool_after_lookup drv "query" d w client key c) by done.
  unfold try_except, mongo.call_tool_body. simpl. rewrite Hsys.
  unfold bind, contains, subscript, dict_get, ret, call, lift.
  destruct Hf as [[Hn ->]|[(fs & Hs & ->)|(s & Hs & Hj)]].
  - rewrite Hn. rewrite bool_decide_eq_false_2 by (by intros [? ?]).
    fold limit projection. by destruct (find drv c _ limit projection).
  - rewrite Hs. rewrite bool_decide_eq_true_2 by eauto.
    fold limit projection. by destruct (find drv c _ limit projection).
  - rewrite Hs. rewrite bool_decide_eq_true_2 by eauto. rewrite Hj.
    fold limit projection. by destruct (find drv c _ limit projection).
Qed.

Lemma query_forwards_witness :
  mongo.handle_call_tool stub_driver "query"
    (Some {["collection" := JStr "orders"]})
    (constructed "mongodb://localhost/shop" [])
  = (Return (mongo.text_result "<pymongo.cursor.Cursor object>"),
     {| db_obj := db_obj (constructed "mongodb://localhost/shop" []);
        calls := [CallGetDatabase; CallGetCollection (JStr "orders");
                  CallFind "orders" (JObj []) (JNum 100) (JObj [])] |}).
Proof.
  refine (query_forwards stub_driver {["collection" := JStr "orders"]}
            (constructed "mongodb://localhost/shop" [])
            (PClient "mongodb://localhost/shop") (JStr "orders")
            {| coll_name := "orders" |} (JObj []) _ _ _ _ _ _);
    [reflexivity .. | left; split; reflexivity].
Defined.

(** X9: a "filter" that is neither an object nor a string (a number, a
    list, a boolean, null) is dropped without an error: the call behaves
    exactly as if no filter had been given. *)
Theorem query_ignores_other_filter (drv : Driver) (d : gmap string json)
  (w : world) (v : json) :
  d !! "filter" = Some v ->
  match v with JObj _ | JStr _ => False | _ => True end ->
  mongo.handle_call_tool drv "query" (Some d) w
  = mongo.handle_call_tool drv "query" (Some (delete "filter" d)) w.
Proof.
  intros Hf Hv.
  unfold mongo.handle_call_tool, bind, getattr, call, subscript.
  destruct (db_obj w !! "client"); [|reflexivity].
  destruct (get_database drv); [|reflexivity].
  rewrite lookup_delete_ne by done.
  destruct (d !! "collection") as [key|]; [|reflexivity].
  unfold ret at 1 3. destruct (get_collection drv key) as [c|]; [|reflexivity].
  unfold try_except, mongo.call_tool_body. simpl.
  destruct (startswith (coll_name c) "system."); [reflexivity|].
  unfold bind, contains, subscript, dict_get, ret.
  rewrite Hf, lookup_delete_eq, !lookup_delete_ne by done.
  rewrite bool_decide_eq_true_2 by eauto.
  rewrite bool_decide_eq_false_2 by (by intros [? ?]).
  by destruct v.
Qed.

Lemma query_ignores_other_filter_witness :
  mongo.handle_call_tool stub_driver "query"
    (Some (<["filter" := JNum 5]> {["collection" := JStr "orders"]}))
    (constructed "mongodb://localhost/shop" [])
  = mongo.handle_call_tool stub_driver "query"
      (Some (delete "filter" (<["filter" := JNum 5]> {["collection" := JStr "orders"]})))
      (constructed "mongodb://localhost/shop" []).
Proof.
  apply (query_ignores_other_filter stub_driver
           (<["filter" := JNum 5]> {["collection" := JStr "orders"]})
           (constructed "mongodb://localhost/shop" []) (JNum 5));
    [reflexivity | exact I].
Defined.

(** X10: a "filter" given as a string that [json.loads] rejects ends the
    call with the decoder's message in-band; no [find] is made. *)
Theorem query_bad_json_filter (drv : Driver) (d : gmap string json) (w : world)
  (client : pyval) (key : json) (c : Collection) (s : string) (e : exn) :
  db_obj w !! "client" = Some client ->
  get_database drv = Return tt ->
  d !! "collection" = Some key ->
  get_collection drv key = Return c ->
  startswith (coll_name c) "system." = false ->
  d !! "filter" = Some (JStr s) ->
  json_loads drv s = Raise e ->
  mongo.handle_call_tool drv "query" (Some d) w
  = (Return (mongo.text_result ("Error: " +:+ str_exn e)),
     {| db_obj := db_obj w;
        calls := (calls w ++ [CallGetDatabase]) ++ [CallGetCollection key] |}).
Proof.
  intros Hc Hd Hk Hg Hsys Hf Hj.
  rewrite (call_tool_after_lookup drv "query" d w client key c) by done.
  unfold try_except, mongo.call_tool_body. simpl. rewrite Hsys.
  unfold bind, contains, subscript, dict_get, ret, call, lift.
  rewrite Hf. rewrite bool_decide_eq_true_2 by eauto. by rewrite Hj.
Qed.

Lemma query_bad_json_filter_witness :
  mongo.handle_call_tool stub_driver "query"
    (Some (<["filter" := JStr "{status:"]> {["collection" := JStr "orders"]}))
    (constructed "mongodb://localhost/shop" [])
  = (Return (mongo.text_result "Error: Expecting value"),
     {| db_obj := db_obj (constructed "mongodb://localhost/shop" []);
        calls := [CallGetDatabase; CallGetCollection (JStr "orders")] |}).
Proof.
  refine (query_bad_json_filter stub_driver
            (<["filter" := JStr "{status:"]> {["collection" := JStr "orders"]})
            (constructed "mongodb://localhost/shop" [])
            (PClient "mongodb://localhost/shop") (JStr "orders")
            {| coll_name := "orders" |} "{status:"
            (ExternalError "JSONDecodeError" "Expecting value") _ _ _ _ _ _ _);
    reflexivity.
Defined.

(** X11: [aggregate] without a "pipeline" argument answers "Error: Missing
    pipeline argument" and sends no aggregation to the driver. *)
Theorem aggregate_without_pipeline (drv : Driver) (d : gmap string json)
  (w : world) (client : pyval) (key : json) (c : Collection) :
  db_obj w !! "client" = Some client ->
  get_database drv = Return tt ->
  d !! "collection" = Some key ->
  get_collection drv key = Return c ->
  d !! "pipeline" = None ->
  mongo.handle_call_tool drv "aggregate" (Some d) w
  = (Return (mongo.text_result "Error: Missing pipeline argument"),
     {| db_obj := db_obj w;
        calls := (calls w ++ [CallGetDatabase]) ++ [CallGetCollection key] |}).
Proof.
  intros Hc Hd Hk Hg Hp.
  rewrite (call_tool_after_lookup drv "aggregate" d w client key c) by done.
  unfold try_except, mongo.call_tool_body. simpl.
  unfold bind, contains, truthy. rewrite Hp.
  rewrite (bool_decide_eq_false_2 (is_Some None)) by (by intros [? ?]).
  by destruct (negb _).
Qed.

Lemma aggregate_without_pipeline_witness :
  mongo.handle_call_tool stub_driver "aggregate"
    (Some {["collection" := JStr "orders"]})
    (constructed "mongodb://localhost/shop" [])
  = (Return (mongo.text_result "Error: Missing pipeline argument"),
     {| db_obj := db_obj (constructed "mongodb://localhost/shop" []);
        calls := [CallGetDatabase; CallGetCollection (JStr "orders")] |}).
Proof.
  refine (aggregate_without_pipeline stub_driver {["collection" := JStr "orders"]}
            (constructed "mongodb://localhost/shop" [])
            (PClient "mongodb://localhost/shop") (JStr "orders")
            {| coll_name := "orders" |} _ _ _ _ _);
    reflexivity.
Defined.

Lemma with_collection_nonempty (d : gmap string json) (key : json) :
  d !! "collection" = Some key -> bool_decide (d = ∅) = false.
Proof.
  intros Hk. apply bool_decide_eq_false_2. intros ->.
  by rewrite lookup_empty in Hk.
Qed.

(** X12: [aggregate] with a pipeline hands it to the driver for whatever
    collection was named: unlike [query], this branch has no check on the
    "system." prefix.  The answer is [str] of the cursor, or the driver's
    error in-band. *)
Theorem aggregate_forwards (drv : Driver) (d : gmap string json) (w : world)
  (client : pyval) (key pipeline : json) (c : Collection) :
  db_obj w !! "client" = Some client ->
  get_database drv = Return tt ->
  d !! "collection" = Some key ->
  get_collection drv key = Return c ->
  d !! "pipeline" = Some pipeline ->
  mongo.handle_call_tool drv "aggregate" (Some d) w
  = (Return (in_band match aggregate drv c pipeline with
                     | Return results => Return (cursor_repr results)
                     | Raise e => Raise e
                     end),
     {| db_obj := db_obj w;
        calls := ((calls w ++ [CallGetDatabase]) ++ [CallGetCollection key])
                 ++ [CallAggregate (coll_name c) pipeline] |}).
Proof.
  intros Hc Hd Hk Hg Hp.
  rewrite (call_tool_after_lookup drv "aggregate" d w client key c) by done.
  unfold try_except, mongo.call_tool_body. simpl.
  unfold bind, contains, truthy, subscript, ret, call.
  rewrite (with_collection_nonempty d key Hk). simpl.
  rewrite Hp. rewrite bool_decide_eq_true_2 by eauto.
  by destruct (aggregate drv c pipeline).
Qed.

Lemma aggregate_forwards_witness :
  mongo.handle_call_tool stub_driver "aggregate"
    (Some (<["pipeline" := JArr []]> {["collection" := JStr "system.users"]}))
    (constructed "mongodb://localhost/shop" [])
  = (Return (mongo.text_result "<pymongo.cursor.Cursor object>"),
     {| db_obj := db_obj (constructed "mongodb://localhost/shop" []);
        calls := [CallGetDatabase; CallGetCollection (JStr "system.users");
                  CallAggregate "system.users" (JArr [])] |}).
Proof.
  refine (aggregate_forwards stub_driver
            (<["pipeline" := JArr []]> {["collection" := JStr "system.users"]})
            (constructed "mongodb://localhost/shop" [])
            (PClient "mongodb://localhost/shop") (JStr "system.users") (JArr [])
            {| coll_name := "system.users" |} _ _ _ _ _);
    reflexivity.
Defined.

(** X13: [count] passes the "query" argument (empty by default) to
    [count_documents] for whatever collection was named, "system."
    collections included, and answers [str] of the number, or the driver's
    error in-band. *)
Theorem count_forwards (drv : Driver) (d : gmap string json) (w : world)
  (client : pyval) (key : json) (c : Collection) :
  db_obj w !! "client" = Some client ->
  get_database drv = Return tt ->
  d !! "collection" = Some key ->
  get_collection drv key = Return c ->
  let query := default (JObj []) (d !! "query") in
  mongo.handle_call_tool drv "count" (Some d) w
  = (Return (in_band match count_documents drv c query with
                     | Return n => Return (py_str drv (JNum n))
                     | Raise e => Raise e
                     end),
     {| db_obj := db_obj w;
        calls := ((calls w ++ [CallGetDatabase]) ++ [CallGetCollection key])
                 ++ [CallCountDocuments (coll_name c) query] |}).
Proof.
  intros Hc Hd Hk Hg query.
  rewrite (call_tool_after_lookup drv "count" d w client key c) by done.
  unfold try_except, mongo.call_tool_body. simpl.
  unfold bind, dict_get, ret, call. fold query.
  by destruct (count_documents drv c query).
Qed.

Lemma count_forwards_witness :
  mongo.handle_call_tool stub_driver "count"
    (Some {["collection" := JStr "system.profile"]})
    (constructed "mongodb://localhost/shop" [])
  = (Return (mongo.text_result "0"),
     {| db_obj := db_obj (constructed "mongodb://localhost/shop" []);
        calls := [CallGetDatabase; CallGetCollection (JStr "system.profile");
                  CallCountDocuments "system.profile" (JObj [])] |}).
Proof.
  refine (count_forwards stub_driver {["collection" := JStr "system.profile"]}
            (constructed "mongodb://localhost/shop" [])
            (PClient "mongodb://localhost/shop") (JStr "system.profile")
            {| coll_name := "system.profile" |} _ _ _ _);
    reflexivity.
Defined.

Lemma collection_is_read (name : string) : "collection" ∈ read_keys name.
Proof.
  unfold read_keys.
  repeat match goal with
         | |- context [if ?b then _ else _] => destruct b
         end; apply elem_of_cons; by left.
Qed.

(** X14: a tool call depends only on the arguments its branch reads.
    Two argument bags that agree on those keys get the same answer and the
    same driver calls; so "explain", "nameOnly", "includeDebugInfo" and the
    "limit", "skip", "hint", ... of [count], all declared in the tool
    schemas, have no effect. *)
Theorem unread_arguments_ignored (drv : Driver) (name : string)
  (d d' : gmap string json) (w : world) :
  (forall k, k ∈ read_keys name -> d !! k = d' !! k) ->
  mongo.handle_call_tool drv name (Some d) w
  = mongo.handle_call_tool drv name (Some d') w.
Proof.
  intros Hagree.
  pose proof (Hagree "collection" (collection_is_read name)) as Hcoll.
  unfold mongo.handle_call_tool, bind, getattr, call, subscript.
  destruct (db_obj w !! "client"); [|reflexivity].
  destruct (get_database drv); [|reflexivity].
  rewrite <- Hcoll.
  destruct (d !! "collection") as [key|] eqn:Hk; [|reflexivity].
  unfold ret at 1 3. destruct (get_collection drv key) as [c|]; [|reflexivity].
  unfold try_except. f_equal.
  assert (bool_decide (d' = ∅) = false) as Hne'
    by (apply (with_collection_nonempty d' key); congruence).
  pose proof (with_collection_nonempty d key Hk) as Hne.
  revert Hagree. unfold read_keys, mongo.call_tool_body.
  destruct (String.eqb name "query").
  { intros Hagree.
    assert (d !! "filter" = d' !! "filter") as Hf
      by (apply Hagree; rewrite !elem_of_cons; tauto).
    assert (d !! "limit" = d' !! "limit") as Hl
      by (apply Hagree; rewrite !elem_of_cons; tauto).
    assert (d !! "projection" = d' !! "projection") as Hp
      by (apply Hagree; rewrite !elem_of_cons; tauto).
    unfold contains, subscript, dict_get. by rewrite <- Hf, <- Hl, <- Hp. }
  destruct (String.eqb name "aggregate").
  { intros Hagree.
    assert (d !! "pipeline" = d' !! "pipeline") as Hp
      by (apply Hagree; rewrite !elem_of_cons; tauto).
    unfold contains, subscript, truthy. by rewrite Hne, Hne', <- Hp. }
  destruct (String.eqb name "serverInfo"); [reflexivity|].
  destruct (String.eqb name "listCollections").
  { intros Hagree.
    assert (d !! "filter" = d' !! "filter") as Hf
      by (apply Hagree; rewrite !elem_of_cons; tauto).
    unfold dict_get. by rewrite <- Hf. }
  destruct (String.eqb name "count"); [|reflexivity].
  intros Hagree.
  assert (d !! "query" = d' !! "query") as Hq
    by (apply Hagree; rewrite !elem_of_cons; tauto).
  unfold dict_get. by rewrite <- Hq.
Qed.

Lemma unread_arguments_ignored_witness :
  mongo.handle_call_tool stub_driver "listCollections"
    (Some (<["nameOnly" := JBool true]> {["collection" := JStr "orders"]}))
    (constructed "mongodb://localhost/shop" [])
  = mongo.handle_call_tool stub_driver "listCollections"
      (Some {["collection" := JStr "orders"]})
      (constructed "mongodb://localhost/shop" []).
Proof.
  apply unread_arguments_ignored.
  intros k Hk. apply lookup_insert_ne. intros <-.
  vm_compute in Hk.
  repeat (apply elem_of_cons in Hk as [Hk|Hk]; [discriminate Hk|]).
  by apply elem_of_nil in Hk.
Defined.

(** ** serverInfo *)

Lemma mongo_serverInfo_result (drv : Driver) (d : gmap string json) (w : world)
  (client : pyval) (key : json) (c : Collection) :
  db_obj w !! "client" = Some client ->
  get_database drv = Return tt ->
  d !! "collection" = Some key ->
  get_collection drv key = Return c ->
  mongo.handle_call_tool drv "serverInfo" (Some d) w
  = (Return (in_band (server_info_text drv)),
     {| db_obj := db_obj w;
        calls := ((calls w ++ [CallGetDatabase]) ++ [CallGetCollection key])
                 ++ [CallCommand (JObj [("buildInfo", JNum 1)])] |}).
Proof.
  intros Hc Hd Hk Hg.
  rewrite (call_tool_after_lookup drv "serverInfo" d w client key c) by done.
  unfold try_except, mongo.call_tool_body, server_info_text. simpl.
  unfold bind, call, ret, mongo.build_info_field.
  destruct (command drv _) as [bi|e]; [|reflexivity].
  repeat match goal with
         | |- context [bi !! ?k] => destruct (bi !! k); [|reflexivity]
         end.
  reflexivity.
Qed.

Lemma server_serverInfo_result (drv : Driver) (w : world) (client : pyval) :
  db_obj w !! "client" = Some client ->
  get_database drv = Return tt ->
  server.serverInfo drv w
  = (server_info_text drv,
     {| db_obj := db_obj w;
        calls := (calls w ++ [CallGetDatabase])
                 ++ [CallCommand (JObj [("buildInfo", JNum 1)])] |}).
Proof.
  intros Hc Hd.
  unfold server.serverInfo, server_info_text, bind, getattr, call, ret,
    server.build_info_field.
  rewrite Hc, Hd. simpl.
  destruct (command drv _) as [bi|e]; [|reflexivity].
  repeat match goal with
         | |- context [bi !! ?k] => destruct (bi !! k); [|reflexivity]
         end.
  reflexivity.
Qed.

Lemma collect_fields_present (bi : gmap string json) (keys : list string) :
  (forall k, k ∈ keys -> is_Some (bi !! k)) ->
  collect_fields bi keys
  = Return (map (fun k => (k, default JNull (bi !! k))) keys).
Proof.
  induction keys as [|k keys IH]; intros Hall; simpl; [reflexivity|].
  destruct (Hall k) as [v Hv]; [apply elem_of_cons; by left|].
  rewrite Hv, IH; [reflexivity|].
  intros k' Hk'. apply Hall. apply elem_of_cons. by right.
Qed.

Lemma collect_fields_missing (bi : gmap string json) (pre post : list string)
  (k : string) :
  (forall k', k' ∈ pre -> is_Some (bi !! k')) ->
  bi !! k = None ->
  collect_fields bi (pre ++ k :: post) = Raise (KeyError k).
Proof.
  induction pre as [|p pre IH]; intros Hall Hk; simpl; [by rewrite Hk|].
  destruct (Hall p) as [v Hv]; [apply elem_of_cons; by left|].
  rewrite Hv, IH; [reflexivity| |exact Hk].
  intros k' Hk'. apply Hall. apply elem_of_cons. by right.
Qed.

(** X15: when the [buildInfo] reply has the thirteen keys, [serverInfo]
    answers [str] of a dict with exactly those keys, in the order of the
    source, followed by an empty "status"; every other field of the reply
    is left out. *)
Theorem serverInfo_allowlist (drv : Driver) (d : gmap string json) (w : world)
  (client : pyval) (key : json) (c : Collection) (bi : gmap string json) :
  db_obj w !! "client" = Some client ->
  get_database drv = Return tt ->
  d !! "collection" = Some key ->
  get_collection drv key = Return c ->
  command drv (JObj [("buildInfo", JNum 1)]) = Return bi ->
  (forall k, k ∈ build_info_keys -> is_Some (bi !! k)) ->
  (mongo.handle_call_tool drv "serverInfo" (Some d) w).1
  = Return (mongo.text_result
              (py_str drv
                 (JObj (map (fun k => (k, default JNull (bi !! k))) build_info_keys
                        ++ [("status", JObj [])])))).
Proof.
  intros Hc Hd Hk Hg Hcmd Hall.
  rewrite (mongo_serverInfo_result drv d w client key c) by done.
  unfold server_info_text. rewrite Hcmd.
  by rewrite (collect_fields_present bi build_info_keys Hall).
Qed.

Lemma serverInfo_allowlist_witness :
  (mongo.handle_call_tool info_driver "serverInfo"
     (Some {["collection" := JStr "orders"]})
     (constructed "mongodb://localhost/shop" [])).1
  = Return (mongo.text_result
              "version,gitVersion,modules,allocator,javascriptEngine,sysInfo,storageEngines,debug,maxBsonObjectSize,openssl,buildEnvironment,bits,ok,status").
Proof.
  refine (serverInfo_allowlist info_driver {["collection" := JStr "orders"]}
            (constructed "mongodb://localhost/shop" [])
            (PClient "mongodb://localhost/shop") (JStr "orders")
            {| coll_name := "orders" |} sample_build_info _ _ _ _ _ _);
    try reflexivity.
  intros k Hk. unfold build_info_keys in Hk.
  repeat (apply elem_of_cons in Hk as [->|Hk]; [vm_compute; eauto|]).
  by apply elem_of_nil in Hk.
Defined.

(** X16: when the reply lacks one of the thirteen keys, [serverInfo]
    answers "Error: '<key>'" for the first key, in reading order, that is
    missing. *)
Theorem serverInfo_missing_key (drv : Driver) (d : gmap string json) (w : world)
  (client : pyval) (key : json) (c : Collection) (bi : gmap string json)
  (pre post : list string) (k : string) :
  db_obj w !! "client" = Some client ->
  get_database drv = Return tt ->
  d !! "collection" = Some key ->
  get_collection drv key = Return c ->
  command drv (JObj [("buildInfo", JNum 1)]) = Return bi ->
  build_info_keys = pre ++ k :: post ->
  (forall k', k' ∈ pre -> is_Some (bi !! k')) ->
  bi !! k = None ->
  (mongo.handle_call_tool drv "serverInfo" (Some d) w).1
  = Return (mongo.text_result ("Error: " +:+ squote +:+ k +:+ squote)).
Proof.
  intros Hc Hd Hk Hg Hcmd Hkeys Hpre Hmiss.
  rewrite (mongo_serverInfo_result drv d w client key c) by done.
  unfold server_info_text. rewrite Hcmd, Hkeys.
  by rewrite (collect_fields_missing bi pre post k Hpre Hmiss).
Qed.

Lemma serverInfo_missing_key_witness :
  (mongo.handle_call_tool stub_driver "serverInfo"
     (Some {["collection" := JStr "orders"]})
     (constructed "mongodb://localhost/shop" [])).1
  = Return (mongo.text_result "Error: 'version'").
Proof.
  refine (serverInfo_missing_key stub_driver {["collection" := JStr "orders"]}
            (constructed "mongodb://localhost/shop" [])
            (PClient "mongodb://localhost/shop") (JStr "orders")
            {| coll_name := "orders" |} ∅ [] (tail build_info_keys) "version"
            _ _ _ _ _ _ _ _);
    try reflexivity.
  intros k' Hk'. by apply elem_of_nil in Hk'.
Defined.

(** X17: once the collection lookup of [handle_call_tool] has succeeded
    (the client exists, the default database resolves, the argument bag
    has a "collection" that the driver accepts), the two [serverInfo]
    variants compute the same thing: the tool of src/mongo.py answers what
    [serverInfo] of server.py returns, and where server.py raises, in the
    [buildInfo] command or on a missing field, src/mongo.py answers
    "Error: " and the message of that exception. *)
Theorem serverInfo_variants_agree (drv : Driver) (d : gmap string json) (w : world)
  (client : pyval) (key : json) (c : Collection) :
  db_obj w !! "client" = Some client ->
  get_database drv = Return tt ->
  d !! "collection" = Some key ->
  get_collection drv key = Return c ->
  (mongo.handle_call_tool drv "serverInfo" (Some d) w).1
  = Return (in_band (server.serverInfo drv w).1).
Proof.
  intros Hc Hd Hk Hg.
  rewrite (mongo_serverInfo_result drv d w client key c) by done.
  by rewrite (server_serverInfo_result drv w client).
Qed.

Lemma serverInfo_variants_agree_witness :
  (mongo.handle_call_tool stub_driver "serverInfo"
     (Some {["collection" := JStr "orders"]})
     (constructed "mongodb://localhost/shop" [])).1
  = Return (in_band (server.serverInfo stub_driver
                       (constructed "mongodb://localhost/shop" [])).1).
Proof.
  refine (serverInfo_variants_agree stub_driver {["collection" := JStr "orders"]}
            (constructed "mongodb://localhost/shop" [])
            (PClient "mongodb://localhost/shop") (JStr "orders")
            {| coll_name := "orders" |} _ _ _ _);
    reflexivity.
Defined.

(** ** server.py *)

(** X18: in server.py the constructor reads the attribute it has just
    assigned, so the module body succeeds whenever the environment has
    "db_uri" and [MongoClient] accepts it: one client is created, and the
    object holds the URI, the client and an empty ledger. *)
Theorem server_module_body_builds (drv : Driver) (environ : gmap string string)
  (w : world) (db_uri : string) :
  environ !! "db_uri" = Some db_uri ->
  MongoClient drv db_uri = Return tt ->
  server.module_body drv environ w
  = (Return tt,
     {| db_obj := db_obj (constructed db_uri []);
        calls := calls w ++ [CallMongoClient db_uri] |}).
Proof.
  intros He Hm. unfold server.module_body. rewrite He.
  unfold server.MongoDatabase, server.__init__, server._init_database,
    server.new_MongoClient, bind, setattr, getattr, call, ret; simpl.
  rewrite lookup_insert_eq, Hm. reflexivity.
Qed.

Lemma server_module_body_builds_witness :
  server.module_body stub_driver {["db_uri" := "mongodb://localhost/shop"]}
    {| db_obj := ∅; calls := [] |}
  = (Return tt,
     {| db_obj := db_obj (constructed "mongodb://localhost/shop" []);
        calls := [] ++ [CallMongoClient "mongodb://localhost/shop"] |}).
Proof.
  refine (server_module_body_builds stub_driver
            {["db_uri" := "mongodb://localhost/shop"]}
            {| db_obj := ∅; calls := [] |} "mongodb://localhost/shop" _ _);
    reflexivity.
Defined.

Lemma collect_names_acc (docs names acc : list json) :
  Forall2 (fun doc n => item doc "name" = Return n) docs names ->
  server.collect_names docs acc = Return (acc ++ names).
Proof.
  intros H. revert acc.
  induction H as [|doc n docs names Hdoc _ IH]; intros acc; simpl.
  - by rewrite app_nil_r.
  - rewrite Hdoc, IH. by rewrite <- app_assoc.
Qed.

Lemma collect_names_fails (pre post names acc : list json) (bad : json) (e : exn) :
  Forall2 (fun doc n => item doc "name" = Return n) pre names ->
  item bad "name" = Raise e ->
  server.collect_names (pre ++ bad :: post) acc = Raise e.
Proof.
  intros H Hbad. revert acc.
  induction H as [|doc n docs names' Hdoc _ IH]; intros acc; simpl.
  - by rewrite Hbad.
  - by rewrite Hdoc, IH.
Qed.

(** X19: [listCollections] of server.py answers [str] of the list of the
    "name" fields of the documents the driver yields, one per document
    and in the driver's order. *)
Theorem server_listCollections_names (drv : Driver) (w : world) (client : pyval)
  (collections : Cursor) (docs names : list json) :
  db_obj w !! "client" = Some client ->
  get_database drv = Return tt ->
  list_collections drv None = Return collections ->
  cursor_items collections = Return docs ->
  Forall2 (fun doc n => item doc "name" = Return n) docs names ->
  server.listCollections drv w
  = (Return (py_str drv (JArr names)),
     {| db_obj := db_obj w;
        calls := (calls w ++ [CallGetDatabase]) ++ [CallListCollections None] |}).
Proof.
  intros Hc Hd Hl Hi Hn.
  unfold server.listCollections, bind, getattr, call, lift, ret.
  rewrite Hc, Hd, Hl. simpl. rewrite Hi.
  by rewrite (collect_names_acc docs names [] Hn).
Qed.

Lemma server_listCollections_names_witness :
  server.listCollections info_driver (constructed "mongodb://localhost/shop" [])
  = (Return "orders,system.views",
     {| db_obj := db_obj (constructed "mongodb://localhost/shop" []);
        calls := ([] ++ [CallGetDatabase]) ++ [CallListCollections None] |}).
Proof.
  refine (server_listCollections_names info_driver
            (constructed "mongodb://localhost/shop" [])
            (PClient "mongodb://localhost/shop") _
            _ [JStr "orders"; JStr "system.views"] _ _ _ _ _);
    try reflexivity.
  repeat constructor.
Defined.

(** X20: a document (a dict) without a "name" field makes
    [listCollections] of server.py raise [KeyError] on "name" at the first
    such document; the names collected so far are lost and nothing is
    answered. *)
Theorem server_listCollections_bad_document (drv : Driver) (w : world)
  (client : pyval) (collections : Cursor) (pre post names : list json)
  (fields : list (string * json)) :
  db_obj w !! "client" = Some client ->
  get_database drv = Return tt ->
  list_collections drv None = Return collections ->
  cursor_items collections = Return (pre ++ JObj fields :: post) ->
  Forall2 (fun doc n => item doc "name" = Return n) pre names ->
  assoc "name" fields = None ->
  server.listCollections drv w
  = (Raise (KeyError "name"),
     {| db_obj := db_obj w;
        calls := (calls w ++ [CallGetDatabase]) ++ [CallListCollections None] |}).
Proof.
  intros Hc Hd Hl Hi Hn Hbad.
  unfold server.listCollections, bind, getattr, call, lift, ret.
  rewrite Hc, Hd, Hl. simpl. rewrite Hi.
  rewrite (collect_names_fails pre post names [] (JObj fields) (KeyError "name") Hn);
    [reflexivity|].
  simpl. by rewrite Hbad.
Qed.

Lemma server_listCollections_bad_document_witness :
  server.listCollections nameless_driver (constructed "mongodb://localhost/shop" [])
  = (Raise (KeyError "name"),
     {| db_obj := db_obj (constructed "mongodb://localhost/shop" []);
        calls := ([] ++ [CallGetDatabase]) ++ [CallListCollections None] |}).
Proof.
  refine (server_listCollections_bad_document nameless_driver
            (constructed "mongodb://localhost/shop" [])
            (PClient "mongodb://localhost/shop") _
            [JObj [("name", JStr "orders")]] [JObj [("name", JStr "users")]]
            [JStr "orders"] [("type", JStr "view")]
            _ _ _ _ _ _);
    try reflexivity.
  repeat constructor.
Defined.

(** X21: every tool of server.py resolves the default database first and
    converts no exception: when the connection string names no database,
    each of the five tools raises the driver's error after that one call. *)
Theorem server_default_database_failure (drv : Driver) (r : server.request)
  (w : world) (client : pyval) (e : exn) :
  db_obj w !! "client" = Some client ->
  get_database drv = Raise e ->
  server.handle drv r w
  = (Raise e, {| db_obj := db_obj w; calls := calls w ++ [CallGetDatabase] |}).
Proof.
  intros Hc Hd.
  destruct r; simpl;
    unfold server.query, server.aggregate, server.serverInfo,
      server.listCollections, server.count, server.default_collection,
      bind, getattr, call;
    by rewrite Hc, Hd.
Qed.

Lemma server_default_database_failure_witness :
  server.handle detached_driver server.ListCollections
    (constructed "mongodb://localhost" [])
  = (Raise (ExternalError "ConfigurationError" "No default database defined"),
     {| db_obj := db_obj (constructed "mongodb://localhost" []);
        calls := [] ++ [CallGetDatabase] |}).
Proof.
  refine (server_default_database_failure detached_driver server.ListCollections
            (constructed "mongodb://localhost" [])
            (PClient "mongodb://localhost") _ _ _);
    reflexivity.
Defined.

(** X22: [query] of server.py answers [str] of the list of documents the
    cursor yields; an error of [find] or of the iteration is raised, not
    answered. *)
Theorem server_query_result (drv : Driver) (n : string) (filter projection : json)
  (limit : Z) (w : world) (client : pyval) (c : Collection) :
  db_obj w !! "client" = Some client ->
  get_database drv = Return tt ->
  get_collection drv (JStr n) = Return c ->
  server.query drv n filter projection limit w
  = (match find drv c filter (JNum limit) projection with
     | Raise e => Raise e
     | Return results =>
         match cursor_items results with
         | Raise e => Raise e
         | Return result_list => Return (py_str drv (JArr result_list))
         end
     end,
     {| db_obj := db_obj w;
        calls := ((calls w ++ [CallGetDatabase]) ++ [CallGetCollection (JStr n)])
                 ++ [CallFind (coll_name c) filter (JNum limit) projection] |}).
Proof.
  intros Hc Hd Hg.
  unfold server.query, server.default_collection, bind, getattr, call, lift, ret.
  rewrite Hc, Hd, Hg. simpl.
  destruct (find drv c filter (JNum limit) projection) as [cur|e]; [|reflexivity].
  by destruct (cursor_items cur).
Qed.

Lemma server_query_result_witness :
  server.query stub_driver "orders" (JObj []) (JObj []) 100
    (constructed "mongodb://localhost/shop" [])
  = (Return "[]",
     {| db_obj := db_obj (constructed "mongodb://localhost/shop" []);
        calls := [CallGetDatabase; CallGetCollection (JStr "orders");
                  CallFind "orders" (JObj []) (JNum 100) (JObj [])] |}).
Proof.
  refine (server_query_result stub_driver "orders" (JObj []) (JObj []) 100
            (constructed "mongodb://localhost/shop" [])
            (PClient "mongodb://localhost/shop") {| coll_name := "orders" |} _ _ _);
    reflexivity.
Defined.

(** ** More on the memo and its resource *)

Lemma bullets_inj (l l' : list string) : map bullet l = map bullet l' -> l = l'.
Proof.
  revert l'. induction l as [|x l IH]; intros [|y l']; simpl; try done.
  intros [= Hxy Hl]. f_equal; [|by apply IH].
  unfold bullet in Hxy. by apply String.app_inj in Hxy.
Qed.

Lemma memo_line_count (l : list string) :
  l <> [] ->
  Forall (fun s => has_newline s = false) l ->
  length (split_lines (mongo.memo_text l))
  = 4 + length l + (if 1 <? length l then 2 else 0).
Proof.
  intros Hne Hl. rewrite (memo_lines l Hne Hl).
  rewrite !length_app, length_map. simpl. by destruct (1 <? length l).
Qed.

(** X23: the memo determines the ledger as long as no entry contains a
    newline: two such ledgers with the same memo text are the same list,
    entry for entry and in the same order. *)
Theorem memo_text_injective (l l' : list string) :
  Forall (fun s => has_newline s = false) l ->
  Forall (fun s => has_newline s = false) l' ->
  mongo.memo_text l = mongo.memo_text l' ->
  l = l'.
Proof.
  intros Hl Hl' Heq.
  destruct (decide (l = [])) as [->|Hne]; destruct (decide (l' = [])) as [->|Hne'];
    [done | | |].
  - apply (f_equal (fun s => length (split_lines s))) in Heq.
    rewrite (memo_line_count l' Hne' Hl') in Heq. simpl in Heq. lia.
  - apply (f_equal (fun s => length (split_lines s))) in Heq.
    rewrite (memo_line_count l Hne Hl) in Heq. simpl in Heq. lia.
  - pose proof (f_equal (fun s => length (split_lines s)) Heq) as Hlen.
    simpl in Hlen.
    rewrite (memo_line_count l Hne Hl), (memo_line_count l' Hne' Hl') in Hlen.
    assert (length l = length l') as Hn.
    { destruct (1 <? length l) eqn:H1; destruct (1 <? length l') eqn:H2;
        try apply Nat.ltb_lt in H1; try apply Nat.ltb_lt in H2;
        try apply Nat.ltb_ge in H1; try apply Nat.ltb_ge in H2; lia. }
    apply (f_equal split_lines) in Heq.
    rewrite (memo_lines l Hne Hl), (memo_lines l' Hne' Hl') in Heq.
    apply app_inv_head in Heq.
    apply app_inj_1 in Heq as [Hb _]; [|by rewrite !length_map].
    by apply bullets_inj.
Qed.

Lemma memo_text_injective_witness :
  ["Revenue grew 12%"; "Churn fell"] = ["Revenue grew 12%"; "Churn fell"].
Proof.
  apply memo_text_injective; [repeat constructor .. | reflexivity].
Defined.

Lemma prefix_memo_has_colon (s : string) :
  String.prefix "memo://" s = true -> has_colon s = true.
Proof.
  intros H.
  repeat (destruct s as [|? s]; [discriminate H|]; simpl in H;
          match type of H with
          | (if ?dec then _ else _) = _ => destruct dec; [subst|discriminate H]
          end).
  reflexivity.
Qed.

Lemma replace_no_colon (new p : string) :
  has_colon p = false -> replace_from "memo://" new 0 p = p.
Proof.
  induction p as [|c p IH]; [reflexivity|]. intros Hc.
  assert (String.prefix "memo://" (String c p) = false) as Hp.
  { destruct (String.prefix "memo://" (String c p)) eqn:E; [|reflexivity].
    apply prefix_memo_has_colon in E. congruence. }
  change (replace_from "memo://" new 0 (String c p))
    with (if String.prefix "memo://" (String c p)
          then new +:+ replace_from "memo://" new 6 p
          else String c (replace_from "memo://" new 0 p)).
  rewrite Hp, IH; [reflexivity|].
  simpl in Hc. by apply orb_false_elim in Hc as [_ ?].
Qed.

Lemma replace_memo_prefix (p : string) :
  str_replace ("memo://" +:+ p) "memo://" "" = replace_from "memo://" "" 0 p.
Proof.
  assert (String.prefix "memo://" ("memo://" +:+ p) = true) as Hp
    by (destruct p; reflexivity).
  unfold str_replace.
  change (replace_from "memo://" "" 0 ("memo://" +:+ p))
    with (if String.prefix "memo://" ("memo://" +:+ p)
          then replace_from "memo://" "" 0 p
          else String "m" (replace_from "memo://" "" 0 ("emo://" +:+ p))).
  by rewrite Hp.
Qed.

(** X24: for a URI whose text is "memo://" followed by a remainder
    without a colon, the path the handler compares is that remainder: the
    read returns the memo when it is "insights" and raises "Unknown
    resource path: <remainder>" otherwise, the empty remainder included. *)
Theorem read_resource_colon_free (p : string) (w : world) (l : list string) :
  db_obj w !! "insights" = Some (PStrList l) ->
  has_colon p = false ->
  mongo.handle_read_resource
    {| mongo.scheme := "memo"; mongo.url_str := "memo://" +:+ p |} w
  = if String.eqb p "insights" then (Return (mongo.memo_text l), w)
    else (Raise (ValueError ("Unknown resource path: " +:+ p)), w).
Proof.
  intros Hw Hp. unfold mongo.handle_read_resource.
  change (mongo.scheme _) with "memo".
  change (negb ("memo" =? "memo")%string) with false. cbv iota.
  change (mongo.url_str _) with ("memo://" +:+ p).
  rewrite replace_memo_prefix, (replace_no_colon "" p Hp).
  destruct (String.eqb_spec p "insights") as [->|Hne].
  - simpl. by apply synthesize_memo_reads.
  - by rewrite orb_true_r.
Qed.

Lemma read_resource_colon_free_witness :
  mongo.handle_read_resource
    {| mongo.scheme := "memo"; mongo.url_str := "memo://" +:+ "insight" |}
    (constructed "mongodb://localhost/shop" [])
  = (Raise (ValueError "Unknown resource path: insight"),
     constructed "mongodb://localhost/shop" []).
Proof.
  refine (read_resource_colon_free "insight"
            (constructed "mongodb://localhost/shop" []) [] _ _);
    reflexivity.
Defined.

(** ** The demo prompt *)

Lemma format_fill (template : list mongo.fmt_piece) (topic : string) :
  forallb is_topic_field template = true ->
  mongo.format template topic = Return (fill template topic).
Proof.
  induction template as [|[s|name] rest IH]; simpl; [done | |].
  - intros H. by rewrite IH.
  - intros [Hn H]%andb_prop. by rewrite Hn, IH.
Qed.

Lemma append_nonempty_r (a b : string) : b <> "" -> a +:+ b <> "".
Proof. destruct a; [done | by rewrite append_cons]. Qed.

Lemma rstrip_append_keep (a b : string) :
  rstrip b <> "" -> rstrip (a +:+ b) = a +:+ rstrip b.
Proof.
  intros Hb. induction a as [|c a IH]; [reflexivity|].
  rewrite !append_cons. simpl. rewrite IH.
  pose proof (append_nonempty_r a (rstrip b) Hb) as Hne.
  by destruct (a +:+ rstrip b).
Qed.

Lemma strip_framed (m z : string) (c : ascii) (a' : string) :
  is_space c = false ->
  rstrip z <> "" ->
  strip (String newline (String c a') +:+ m +:+ z)
  = String c a' +:+ m +:+ rstrip z.
Proof.
  intros Hc Hz. unfold strip. rewrite append_cons.
  change (lstrip (String newline ?s)) with (lstrip s).
  rewrite append_cons. simpl lstrip. rewrite Hc.
  rewrite <- append_cons.
  rewrite rstrip_append_keep; rewrite rstrip_append_keep; try done.
  by apply append_nonempty_r.
Qed.

Lemma strip_fill_shape (s0 s1 s2 s3 f1 f2 f3 topic : string) :
  (exists c a', s0 = String newline (String c a') /\ is_space c = false) ->
  rstrip s3 <> "" ->
  s3 = rstrip s3 +:+ nl ->
  let template :=
    [ mongo.Lit s0; mongo.Field f1; mongo.Lit s1; mongo.Field f2;
      mongo.Lit s2; mongo.Field f3; mongo.Lit s3 ] in
  nl +:+ strip (fill template topic) +:+ nl = fill template topic.
Proof.
  intros (c & a' & -> & Hc) Hz Hz' template. subst template. cbn [fill].
  rewrite append_empty_r.
  set (body := topic +:+ s1 +:+ topic +:+ s2 +:+ topic).
  assert (topic +:+ s1 +:+ topic +:+ s2 +:+ topic +:+ s3 = body +:+ s3) as ->
    by (unfold body; by rewrite !append_assoc).
  rewrite strip_framed by done.
  set (z' := rstrip s3) in *. rewrite Hz'.
  by rewrite !append_assoc.
Qed.

(** X25: for every topic, [handle_get_prompt] returns one user message.
    Its text is the template with each "{topic}" replaced by the topic,
    character for character, and only the newline that opens the template
    and the one that closes it are stripped: white space inside the topic
    is kept. *)
Theorem get_prompt_text (d : gmap string string) (topic : string) (w : world) :
  d !! "topic" = Some topic ->
  exists txt,
    mongo.handle_get_prompt "mcp-demo" (Some d) w
    = (Return {| mongo.result_description := "Demo template for " +:+ topic;
                 mongo.messages :=
                   [ {| mongo.role := "user";
                        mongo.content := {| mongo.type := "text"; mongo.text := txt |} |} ] |},
       w)
    /\ nl +:+ txt +:+ nl = fill mongo.PROMPT_TEMPLATE topic.
Proof.
  intros Hd. unfold mongo.handle_get_prompt.
  change (negb ("mcp-demo" =? "mcp-demo")%string) with false. cbv iota.
  rewrite Hd. unfold bind, lift.
  rewrite format_fill by (vm_compute; reflexivity).
  eexists. split; [reflexivity|].
  apply strip_fill_shape.
  - vm_compute. eexists _, _. split; reflexivity.
  - vm_compute. discriminate.
  - vm_compute. reflexivity.
Qed.

Lemma get_prompt_text_witness :
  exists txt,
    mongo.handle_get_prompt "mcp-demo" (Some {["topic" := " retail sales "]})
      (constructed "mongodb://localhost/shop" [])
    = (Return {| mongo.result_description := "Demo template for " +:+ " retail sales ";
                 mongo.messages :=
                   [ {| mongo.role := "user";
                        mongo.content := {| mongo.type := "text"; mongo.text := txt |} |} ] |},
       constructed "mongodb://localhost/shop" [])
    /\ nl +:+ txt +:+ nl = fill mongo.PROMPT_TEMPLATE " retail sales ".
Proof. apply get_prompt_text. reflexivity. Defined.

(** ** listCollections in src/mongo.py *)

(** X26: [listCollections] of src/mongo.py passes the "filter" argument
    (empty by default) to the driver and answers [str] of the cursor
    object itself: the cursor is never iterated, so no collection name is
    part of the answer. *)
Theorem listCollections_forwards (drv : Driver) (d : gmap string json) (w : world)
  (client : pyval) (key : json) (c : Collection) :
  db_obj w !! "client" = Some client ->
  get_database drv = Return tt ->
  d !! "collection" = Some key ->
  get_collection drv key = Return c ->
  let filter := default (JObj []) (d !! "filter") in
  mongo.handle_call_tool drv "listCollections" (Some d) w
  = (Return (in_band match list_collections drv (Some filter) with
                     | Return collections => Return (cursor_repr collections)
                     | Raise e => Raise e
                     end),
     {| db_obj := db_obj w;
        calls := ((calls w ++ [CallGetDatabase]) ++ [CallGetCollection key])
                 ++ [CallListCollections (Some filter)] |}).
Proof.
  intros Hc Hd Hk Hg filter.
  rewrite (call_tool_after_lookup drv "listCollections" d w client key c) by done.
  unfold try_except, mongo.call_tool_body. simpl.
  unfold bind, dict_get, ret, call. fold filter.
  by destruct (list_collections drv (Some filter)).
Qed.

Lemma listCollections_forwards_witness :
  mongo.handle_call_tool info_driver "listCollections"
    (Some {["collection" := JStr "orders"]})
    (constructed "mongodb://localhost/shop" [])
  = (Return (mongo.text_result "<pymongo.command_cursor.CommandCursor object>"),
     {| db_obj := db_obj (constructed "mongodb://localhost/shop" []);
        calls := [CallGetDatabase; CallGetCollection (JStr "orders");
                  CallListCollections (Some (JObj []))] |}).
Proof.
  refine (listCollections_forwards info_driver {["collection" := JStr "orders"]}
            (constructed "mongodb://localhost/shop" [])
            (PClient "mongodb://localhost/shop") (JStr "orders")
            {| coll_name := "orders" |} _ _ _ _);
    reflexivity.
Defined.
